(** * Extraction pipeline of the channel scraper (Lab 1/app.py)

    A shallow embedding of [convert_views_to_number] and [parse_html]
    together with the Python built-ins they call, followed by the
    properties of the extraction and normalisation pipeline. *)

From Stdlib Require Import ZArith List Bool Ascii String Lia.
From Stdlib Require Import Floats.SpecFloat.
Import ListNotations.
Open Scope string_scope.
Open Scope Z_scope.

(** ** Exceptions

    A computation that may raise is a sum: [inl e] is an exception [e]
    escaping, [inr v] a normal return of [v]. *)

Definition result (E A : Type) : Type := (E + A)%type.

Definition ret {E A : Type} (a : A) : result E A := inr a.
Definition raise {E A : Type} (e : E) : result E A := inl e.

Definition bind {E A B : Type} (m : result E A) (k : A -> result E B)
  : result E B :=
  match m with
  | inl e => inl e
  | inr a => k a
  end.

(** [try: body except Exception as e: handler e] *)
Definition try_except {E A : Type} (body : result E A) (handler : E -> result E A)
  : result E A :=
  match body with
  | inl e => handler e
  | inr a => inr a
  end.

Declare Scope py_scope.
Delimit Scope py_scope with py.
Notation "x <- m ;; k" := (bind m (fun x => k))
  (at level 61, m at next level, right associativity) : py_scope.

(** ** Python [str] methods

    A [str] is a [string]; each character is read as the code point of
    the same number (the range U+0000 .. U+00FF). *)

Module PyStr.

Definition code (c : ascii) : nat := nat_of_ascii c.

Definition between (lo hi : nat) (c : ascii) : bool :=
  (Nat.leb lo (code c) && Nat.leb (code c) hi)%bool.

(** [str.isspace] on one character: TAB..CR, FS..US, SPACE, NEL, NBSP. *)
Definition isspace (c : ascii) : bool :=
  (between 9 13 c || between 28 32 c
   || Nat.eqb (code c) 133 || Nat.eqb (code c) 160)%bool.

Definition isdigit (c : ascii) : bool := between 48 57 c.

(** [s.startswith(p)] *)
Definition startswith (s p : string) : bool := String.prefix p s.

(** [sub in s] *)
Fixpoint contains (sub s : string) : bool :=
  (String.prefix sub s
   || match s with
      | EmptyString => false
      | String _ s' => contains sub s'
      end)%bool.

(** [s.replace(old, new)] for a non-empty [old]: the occurrences are
    taken from the left and do not overlap.  [skip] counts the
    characters of an occurrence that are still to be passed over. *)
Fixpoint replace_from (old new : string) (skip : nat) (s : string) : string :=
  match s with
  | EmptyString => EmptyString
  | String c s' =>
      match skip with
      | S k => replace_from old new k s'
      | O =>
          if String.prefix old s
          then new ++ replace_from old new (Nat.pred (String.length old)) s'
          else String c (replace_from old new O s')
      end
  end.

Definition replace (s old new : string) : string := replace_from old new O s.

Fixpoint lstrip_by (sp : ascii -> bool) (s : string) : string :=
  match s with
  | EmptyString => EmptyString
  | String c s' => if sp c then lstrip_by sp s' else s
  end.

Fixpoint rstrip_by (sp : ascii -> bool) (s : string) : string :=
  match s with
  | EmptyString => EmptyString
  | String c s' =>
      match rstrip_by sp s' with
      | EmptyString => if sp c then EmptyString else String c EmptyString
      | r => String c r
      end
  end.

(** [s.strip()] *)
Definition strip (s : string) : string := rstrip_by isspace (lstrip_by isspace s).

(** Longest prefix of characters satisfying [p], and the rest. *)
Fixpoint span (p : ascii -> bool) (s : string) : string * string :=
  match s with
  | EmptyString => (EmptyString, EmptyString)
  | String c s' =>
      if p c then let '(a, b) := span p s' in (String c a, b)
      else (EmptyString, s)
  end.

Fixpoint forallb (p : ascii -> bool) (s : string) : bool :=
  match s with
  | EmptyString => true
  | String c s' => (p c && forallb p s')%bool
  end.

(** ASCII lower-casing of one character. *)
Definition lower (c : ascii) : ascii :=
  if between 65 90 c then ascii_of_nat (code c + 32) else c.

Fixpoint lowercase (s : string) : string :=
  match s with
  | EmptyString => EmptyString
  | String c s' => String (lower c) (lowercase s')
  end.

End PyStr.

(** ** Python numbers: [int(str)], [float(str)], [float * int], [int(float)] *)

Module PyNum.

Inductive exn : Type :=
| ValueError
| OverflowError.

(** A Python [float] is an IEEE 754 binary64 value. *)
Definition float : Type := spec_float.
Definition prec : Z := 53.
Definition emax : Z := 1024.

(** White space accepted around a numeric literal by [int] and [float]:
    TAB..CR and SPACE, and the non-ASCII spaces NEL and NBSP, which the
    interpreter first rewrites to SPACE. *)
Definition numspace (c : ascii) : bool :=
  (PyStr.between 9 13 c || Nat.eqb (PyStr.code c) 32
   || Nat.eqb (PyStr.code c) 133 || Nat.eqb (PyStr.code c) 160)%bool.

Definition strip_numspace (s : string) : string :=
  PyStr.rstrip_by numspace (PyStr.lstrip_by numspace s).

Definition is_underscore (c : ascii) : bool := Ascii.eqb c "_".

(** Digit-group underscores: each one must stand between two digits;
    they are removed, anything else is kept.  [prev] is the character
    before [s], if any. *)
Fixpoint remove_underscores (prev : option ascii) (s : string) : option string :=
  match s with
  | EmptyString =>
      match prev with
      | Some p => if is_underscore p then None else Some EmptyString
      | None => Some EmptyString
      end
  | String c s' =>
      if is_underscore c then
        match prev with
        | Some p => if PyStr.isdigit p then remove_underscores (Some c) s' else None
        | None => None
        end
      else
        let prev_us := match prev with Some p => is_underscore p | None => false end in
        if (prev_us && negb (PyStr.isdigit c))%bool then None
        else option_map (String c) (remove_underscores (Some c) s')
  end.

Definition digit_value (c : ascii) : Z := Z.of_nat (PyStr.code c) - 48.

(** Value of a string of decimal digits, most significant first. *)
Fixpoint digits_value (acc : Z) (s : string) : Z :=
  match s with
  | EmptyString => acc
  | String c s' => digits_value (10 * acc + digit_value c) s'
  end.

(** Optional leading sign; [true] is minus. *)
Definition take_sign (s : string) : bool * string :=
  match s with
  | String "-" s' => (true, s')
  | String "+" s' => (false, s')
  | _ => (false, s)
  end.

(** [sys.get_int_max_str_digits()] *)
Definition int_max_str_digits : nat := 4300.

(** [int(s)] for a [str] argument (base 10). *)
Definition int_of_str (s : string) : result exn Z :=
  let '(neg, body) := take_sign (PyStr.lstrip_by numspace s) in
  match remove_underscores None (PyStr.rstrip_by numspace body) with
  | None => raise ValueError
  | Some ds =>
      match ds with
      | EmptyString => raise ValueError
      | _ =>
          if negb (PyStr.forallb PyStr.isdigit ds) then raise ValueError
          else if Nat.ltb int_max_str_digits (String.length ds) then raise ValueError
          else ret (if neg then - digits_value 0 ds else digits_value 0 ds)
      end
  end.

(** The binary64 value nearest to [(-1)^neg * p / q], ties to even. *)
Definition round_ratio (neg : bool) (p q : Z) : float :=
  match p with
  | Z0 => S754_zero neg
  | _ =>
      let '(mz, ez, lz) := SFdiv_core_binary prec emax p 0 q 0 in
      binary_round_aux prec emax neg mz ez lz
  end.

(** The float nearest to [(-1)^neg * m * 10^e]. *)
Definition float_of_decimal (neg : bool) (m e : Z) : float :=
  if 0 <=? e then round_ratio neg (m * 10 ^ e) 1
  else round_ratio neg m (10 ^ (- e)).

(** The exponent part of a literal: empty, or [e], an optional sign and
    at least one digit. *)
Definition parse_exponent (s : string) : option Z :=
  match s with
  | EmptyString => Some 0
  | String c s' =>
      if (Ascii.eqb c "e" || Ascii.eqb c "E")%bool then
        let '(neg, ds) := take_sign s' in
        match ds with
        | EmptyString => None
        | _ =>
            if PyStr.forallb PyStr.isdigit ds
            then Some (if neg then - digits_value 0 ds else digits_value 0 ds)
            else None
        end
      else None
  end.

(** A decimal literal without sign: digits, optional point and digits,
    optional exponent; at least one digit before the exponent. *)
Definition parse_decimal (neg : bool) (s : string) : option float :=
  let '(ip, r1) := PyStr.span PyStr.isdigit s in
  let '(fp, r2) :=
    match r1 with
    | String "." r => PyStr.span PyStr.isdigit r
    | _ => (EmptyString, r1)
    end in
  match ip ++ fp with
  | EmptyString => None
  | ds =>
      match parse_exponent r2 with
      | None => None
      | Some e =>
          Some (float_of_decimal neg (digits_value 0 ds)
                  (e - Z.of_nat (String.length fp)))
      end
  end.

(** [float(s)] for a [str] argument. *)
Definition float_of_str (s : string) : result exn float :=
  match remove_underscores None (strip_numspace s) with
  | None => raise ValueError
  | Some t =>
      let '(neg, body) := take_sign t in
      let word := PyStr.lowercase body in
      if (String.eqb word "inf" || String.eqb word "infinity")%bool
      then ret (S754_infinity neg)
      else if String.eqb word "nan" then ret S754_nan
      else
        match parse_decimal neg body with
        | Some f => ret f
        | None => raise ValueError
        end
  end.

(** The float of an [int] operand in mixed arithmetic. *)
Definition float_of_int (n : Z) : float := round_ratio (n <? 0) (Z.abs n) 1.

(** [x * n] for a float [x] and an [int] [n]. *)
Definition mul_int (x : float) (n : Z) : float :=
  SFmul prec emax x (float_of_int n).

(** [int(x)] for a float [x]: truncation towards zero. *)
Definition int_of_float (x : float) : result exn Z :=
  match x with
  | S754_zero _ => ret 0
  | S754_infinity _ => raise OverflowError
  | S754_nan => raise ValueError
  | S754_finite neg m e =>
      let a := if 0 <=? e then Z.pos m * 2 ^ e else Z.pos m / 2 ^ (- e) in
      ret (if neg then - a else a)
  end.

End PyNum.

(** ** [convert_views_to_number] *)

Import PyNum.

(** The body of the [try] block. *)
Definition convert_views_try (views_text : string) : result exn Z :=
  let text :=
    PyStr.strip (PyStr.replace (PyStr.replace views_text " views" "") " view" "") in
  if PyStr.contains "K" text then
    (number <- float_of_str (PyStr.replace text "K" "") ;;
     int_of_float (mul_int number 1000))%py
  else if PyStr.contains "M" text then
    (number <- float_of_str (PyStr.replace text "M" "") ;;
     int_of_float (mul_int number 1000000))%py
  else if PyStr.contains "B" text then
    (number <- float_of_str (PyStr.replace text "B" "") ;;
     int_of_float (mul_int number 1000000000))%py
  else
    int_of_str (PyStr.replace text "," "").

(** The whole function, with its [except Exception] handler. *)
Definition convert_views_to_number_exc (views_text : string) : result exn Z :=
  try_except (convert_views_try views_text) (fun _ => ret 0).

Definition convert_views_to_number (views_text : string) : Z :=
  match convert_views_to_number_exc views_text with
  | inr n => n
  | inl _ => 0
  end.

(** ** The normaliser in the words of its description

    Strip the unit word and white space; then look for K, then M, then
    B: with such a letter, the text without it is read as a float,
    multiplied and truncated; without one, the text without commas is
    read as an integer.  A failure to read gives 0. *)

Definition unit_stripped (views_text : string) : string :=
  PyStr.strip (PyStr.replace (PyStr.replace views_text " views" "") " view" "").

Definition scaled (number : string) (factor : Z) : Z :=
  match float_of_str number with
  | inr x =>
      match int_of_float (mul_int x factor) with
      | inr n => n
      | inl _ => 0
      end
  | inl _ => 0
  end.

Definition plain_integer (text : string) : Z :=
  match int_of_str (PyStr.replace text "," "") with
  | inr n => n
  | inl _ => 0
  end.

Definition normalizer_spec (views_text : string) : Z :=
  let text := unit_stripped views_text in
  if PyStr.contains "K" text then scaled (PyStr.replace text "K" "") 1000
  else if PyStr.contains "M" text then scaled (PyStr.replace text "M" "") 1000000
  else if PyStr.contains "B" text then scaled (PyStr.replace text "B" "") 1000000000
  else plain_integer text.

(** The characters of a number before its suffix letter: digits, point,
    sign, exponent mark and digit-group underscore. *)
Definition number_char (c : ascii) : bool :=
  (PyStr.isdigit c || Ascii.eqb c "." || Ascii.eqb c "+" || Ascii.eqb c "-"
   || Ascii.eqb c "e" || Ascii.eqb c "E" || Ascii.eqb c "_")%bool.

(** [c] does not occur in [s]. *)
Definition lacks (c : ascii) (s : string) : bool :=
  PyStr.forallb (fun x => negb (Ascii.eqb x c)) s.

(** A float that is not negative: its sign bit is clear, or it is NaN. *)
Definition sign_clear (x : float) : bool :=
  match x with
  | S754_zero s => negb s
  | S754_infinity s => negb s
  | S754_nan => true
  | S754_finite s _ _ => negb s
  end.

(** ** The markup library (bs4), as the pipeline uses it

    [tag] is a parsed element (the document object included); every call
    into the library may raise an exception of type [exc]. *)

Class Soup : Type := {
  tag : Type;
  exc : Type;
  (** [str(e)] *)
  str_exc : exc -> string;
  (** [BeautifulSoup(html_content, 'html.parser')] *)
  BeautifulSoup : string -> result exc tag;
  (** [t.select(selector)] *)
  select : tag -> string -> result exc (list tag);
  (** [t.select_one(selector)] *)
  select_one : tag -> string -> result exc (option tag);
  (** [t.get(name)] *)
  get : tag -> string -> result exc (option string);
  (** [t[name]] *)
  getitem : tag -> string -> result exc string;
  (** [t.get_text(strip=True)] *)
  get_text : tag -> result exc string
}.

(** One row of the output table. *)
Record video : Type := mk_video {
  Title : string;
  URL : string;
  Views : Z;
  Posted : string;
  Scraped_At : string
}.

(** The four fields that do not depend on the time of the call. *)
Definition content (v : video) : string * string * Z * string :=
  (Title v, URL v, Views v, Posted v).

(** Truth value of a [str] or [None]. *)
Definition truthy (s : option string) : bool :=
  match s with
  | Some (String _ _) => true
  | _ => false
  end.

Definition selectors : list string :=
  [ "ytd-grid-video-renderer";
    "ytd-rich-item-renderer";
    "div#dismissible" ].

Definition title_selectors : list string :=
  [ "#video-title";
    "a#video-title-link";
    "a[title]";
    "h3 a";
    "yt-formatted-string#video-title" ].

Definition url_selector : string := "a#video-title-link, a#video-title".

Definition metadata_selectors : list string :=
  [ "#metadata-line span";
    "div#metadata-line span";
    "ytd-video-meta-block span" ].

Definition youtube_origin : string := "https://www.youtube.com".

Definition no_elements_msg : string :=
  "No video elements found. Page structure may have changed or content didn't load.".

Definition no_videos_msg : string :=
  "No videos were successfully parsed. Check if the page loaded correctly.".

Definition parsing_failed_msg (e : string) : string := "Parsing failed - " ++ e.

(** What [parse_html] returns: success, table or [None], message or [None]. *)
Definition outcome : Type := (bool * option (list video) * option string)%type.

(** An outcome without the times of capture. *)
Definition outcome_content (o : outcome)
  : bool * option (list (string * string * Z * string)) * option string :=
  let '(ok, table, msg) := o in (ok, option_map (map content) table, msg).

Section ParseHtml.

Context {bs : Soup}.

(** [datetime.now().strftime(...)]: [now n] is what the call number [n]
    (from 0) of one run of [parse_html] returns. *)
Variable now : nat -> string.

Local Open Scope py_scope.

(** The loop over [selectors]: the first selector with a match gives
    [video_elements]. *)
Fixpoint video_elements (soup : tag) (sels : list string) : result exc (list tag) :=
  match sels with
  | [] => ret []
  | selector :: rest =>
      elements <- select soup selector ;;
      match elements with
      | [] => video_elements soup rest
      | _ :: _ => ret elements
      end
  end.

(** The loop over [title_selectors]; [title] is the value so far. *)
Fixpoint title_loop (element : tag) (sels : list string) (title : option string)
  : result exc (option string) :=
  match sels with
  | [] => ret title
  | selector :: rest =>
      title_elem <- select_one element selector ;;
      match title_elem with
      | Some te =>
          attr <- get te "title" ;;
          title' <- (if truthy attr then ret attr
                     else (txt <- get_text te ;; ret (Some txt))) ;;
          if truthy title' then ret title'
          else title_loop element rest title'
      | None => title_loop element rest title
      end
  end.

Definition extract_url (element : tag) : result exc (option string) :=
  url_elem <- select_one element url_selector ;;
  match url_elem with
  | Some ue =>
      h <- get ue "href" ;;
      if truthy h then
        href <- getitem ue "href" ;;
        ret (Some (if PyStr.startswith href "/" then youtube_origin ++ href else href))
      else ret None
  | None => ret None
  end.

(** The loop over [metadata_selectors]; [views] and [time_posted] are
    the values so far. *)
Fixpoint metadata_loop (element : tag) (sels : list string)
    (views : Z) (time_posted : string) : result exc (Z * string) :=
  match sels with
  | [] => ret (views, time_posted)
  | selector :: rest =>
      metadata_spans <- select element selector ;;
      match metadata_spans with
      | s0 :: s1 :: _ =>
          views_text <- get_text s0 ;;
          posted <- get_text s1 ;;
          ret (convert_views_to_number views_text, posted)
      | [s0] =>
          views_text <- get_text s0 ;;
          metadata_loop element rest (convert_views_to_number views_text) time_posted
      | [] => metadata_loop element rest views time_posted
      end
  end.

(** The extraction part of the loop body, up to the test on [title]
    and [url]. *)
Definition extract (element : tag)
  : result exc (option string * option string * Z * string) :=
  title <- title_loop element title_selectors None ;;
  url <- extract_url element ;;
  meta <- metadata_loop element metadata_selectors 0 "N/A" ;;
  ret (title, url, fst meta, snd meta).

(** One iteration of the loop over the containers, with its
    [except Exception: continue]. *)
Definition parse_element (videos : list video) (element : tag) : list video :=
  match extract element with
  | inr (Some title, Some url, views, time_posted) =>
      if (truthy (Some title) && truthy (Some url))%bool
      then videos ++ [mk_video title url views time_posted (now (List.length videos))]
      else videos
  | inr _ => videos
  | inl _ => videos
  end.

(** What one container adds to the table. *)
Inductive step : list video -> tag -> list video -> Prop :=
| step_raised videos element e :
    extract element = inl e ->
    step videos element videos
| step_dropped videos element title url views posted :
    extract element = inr (title, url, views, posted) ->
    (truthy title && truthy url)%bool = false ->
    step videos element videos
| step_added videos element title url views posted :
    extract element = inr (Some title, Some url, views, posted) ->
    truthy (Some title) = true ->
    truthy (Some url) = true ->
    step videos element
      (videos ++ [mk_video title url views posted (now (List.length videos))]).

Definition parse_elements (elements : list tag) : list video :=
  fold_left parse_element elements [].

(** The body of the outer [try] block. *)
Definition parse_html_try (html_content : string) : result exc outcome :=
  soup <- BeautifulSoup html_content ;;
  elements <- video_elements soup selectors ;;
  match elements with
  | [] => ret (false, None, Some no_elements_msg)
  | _ :: _ =>
      match parse_elements elements with
      | [] => ret (false, None, Some no_videos_msg)
      | videos => ret (true, Some videos, None)
      end
  end.

(** The whole function, with its outer [except Exception] handler. *)
Definition parse_html_exc (html_content : string) : result exc outcome :=
  try_except (parse_html_try html_content)
    (fun e => ret (false, None, Some (parsing_failed_msg (str_exc e)))).

Definition parse_html (html_content : string) : outcome :=
  match parse_html_exc html_content with
  | inr r => r
  | inl e => (false, None, Some (parsing_failed_msg (str_exc e)))
  end.

End ParseHtml.

(** ** A document tree and the selectors the pipeline uses

    The tree is what the HTML parser hands over: elements with their
    attributes, text, and the strings [get_text] passes over (comments
    and the like).  Element and attribute names are in lower case. *)

Module Dom.

Definition attrs : Type := list (string * string).

#[local] Unset Elimination Schemes.
Inductive node : Type :=
| Text (s : string)
| Comment (s : string)
| Element (name : string) (a : attrs) (children : list node).
#[local] Set Elimination Schemes.

(** An element together with the elements that enclose it, the
    nearest first. *)
Record elem : Type := mk_elem {
  e_ancestors : list (string * attrs);
  e_name : string;
  e_attrs : attrs;
  e_children : list node
}.

Fixpoint lookup (k : string) (a : attrs) : option string :=
  match a with
  | [] => None
  | (k', v) :: a' => if String.eqb k k' then Some v else lookup k a'
  end.

(** The elements below a node, in document order, the node included. *)
Fixpoint subtree (anc : list (string * attrs)) (n : node) : list elem :=
  match n with
  | Element name a children =>
      mk_elem anc name a children
        :: flat_map (subtree ((name, a) :: anc)) children
  | _ => []
  end.

Definition descendants (e : elem) : list elem :=
  flat_map (subtree ((e_name e, e_attrs e) :: e_ancestors e)) (e_children e).

(** The text strings below a node, in document order. *)
Fixpoint strings (n : node) : list string :=
  match n with
  | Text s => [s]
  | Comment _ => []
  | Element _ _ children => flat_map strings children
  end.

Definition text_strip (e : elem) : string :=
  String.concat "" (map PyStr.strip (flat_map strings (e_children e))).

(** A compound selector: [name], [#id] and [[attr]], each optional. *)
Record compound : Type := mk_compound {
  c_name : option string;
  c_id : option string;
  c_attr : option string
}.

Definition ident_char (c : ascii) : bool :=
  (PyStr.between 97 122 c || PyStr.between 65 90 c || PyStr.isdigit c
   || Ascii.eqb c "-" || Ascii.eqb c "_")%bool.

Definition nonempty (s : string) : option string :=
  match s with
  | EmptyString => None
  | _ => Some s
  end.

Definition parse_compound (s : string) : option compound :=
  let '(name, r1) := PyStr.span ident_char s in
  let '(id, r2) :=
    match r1 with
    | String "#" r => PyStr.span ident_char r
    | _ => (EmptyString, r1)
    end in
  let id_ok := match r1 with String "#" _ => negb (String.eqb id "") | _ => true end in
  let '(attr, r3, attr_ok) :=
    match r2 with
    | String "[" r =>
        let '(a, r') := PyStr.span ident_char r in
        match r' with
        | String "]" r'' => (a, r'', negb (String.eqb a ""))
        | _ => (a, r', false)
        end
    | _ => (EmptyString, r2, true)
    end in
  match r3 with
  | EmptyString =>
      if (id_ok && attr_ok
          && negb (String.eqb name "" && String.eqb id "" && String.eqb attr ""))%bool
      then Some (mk_compound (nonempty name) (nonempty id) (nonempty attr))
      else None
  | _ => None
  end.

(** The pieces of [s] between occurrences of [sep]; [cur] is the piece
    being read. *)
Fixpoint split_from (sep : ascii) (cur : string) (s : string) : list string :=
  match s with
  | EmptyString => [cur]
  | String c s' =>
      if Ascii.eqb c sep then cur :: split_from sep EmptyString s'
      else split_from sep (cur ++ String c EmptyString) s'
  end.

Definition split (sep : ascii) (s : string) : list string :=
  split_from sep EmptyString s.

Fixpoint sequence {A : Type} (l : list (option A)) : option (list A) :=
  match l with
  | [] => Some []
  | None :: _ => None
  | Some a :: l' => option_map (cons a) (sequence l')
  end.

(** A complex selector: compounds joined by the descendant combinator,
    the subject last. *)
Definition parse_complex (s : string) : option (list compound) :=
  match filter (fun p => negb (String.eqb p "")) (split " " s) with
  | [] => None
  | parts => sequence (map parse_compound parts)
  end.

(** A selector list: complex selectors separated by commas. *)
Definition parse_selector (s : string) : option (list (list compound)) :=
  sequence (map parse_complex (split "," s)).

Definition opt_eqb (want : option string) (have : option string) : bool :=
  match want with
  | None => true
  | Some w => match have with Some h => String.eqb w h | None => false end
  end.

Definition match_compound (c : compound) (name : string) (a : attrs) : bool :=
  (opt_eqb (c_name c) (Some name)
   && opt_eqb (c_id c) (lookup "id" a)
   && match c_attr c with
      | None => true
      | Some k => match lookup k a with Some _ => true | None => false end
      end)%bool.

(** [cs], innermost first, are matched by enclosing elements of [anc],
    in the same order from the inside out. *)
Fixpoint match_ancestors (cs : list compound) (anc : list (string * attrs)) : bool :=
  match cs with
  | [] => true
  | c :: cs' =>
      (fix find (anc : list (string * attrs)) : bool :=
         match anc with
         | [] => false
         | (name, a) :: anc' =>
             if match_compound c name a then match_ancestors cs' anc'
             else find anc'
         end) anc
  end.

Definition match_complex (cx : list compound) (e : elem) : bool :=
  match rev cx with
  | [] => false
  | subject :: outer =>
      (match_compound subject (e_name e) (e_attrs e)
       && match_ancestors outer (e_ancestors e))%bool
  end.

Definition css_select (e : elem) (selector : string) : result string (list elem) :=
  match parse_selector selector with
  | None => raise ("Invalid selector: " ++ selector)
  | Some alts =>
      ret (filter (fun d => existsb (fun cx => match_complex cx d) alts)
             (descendants e))
  end.

Definition css_select_one (e : elem) (selector : string) : result string (option elem) :=
  bind (css_select e selector) (fun l => ret (hd_error l)).

(** The document object: the parent of the top-level nodes. *)
Definition document (nodes : list node) : elem :=
  mk_elem [] "[document]" [] nodes.

(** The library over document trees, for a given HTML parser. *)
Definition soup (html_parser : string -> result string (list node)) : Soup :=
  {| tag := elem;
     exc := string;
     str_exc := fun e => e;
     BeautifulSoup := fun html => bind (html_parser html) (fun ns => ret (document ns));
     select := css_select;
     select_one := css_select_one;
     get := fun e k => ret (lookup k (e_attrs e));
     getitem := fun e k =>
       match lookup k (e_attrs e) with
       | Some v => ret v
       | None => raise ("'" ++ k ++ "'")
       end;
     get_text := fun e => ret (text_strip e) |}.

End Dom.

(** The library [bs] with a fault injected: [get_text] raises on the
    tags [fault] selects. *)
Definition with_fault (bs : Soup) (fault : @tag bs -> option (@exc bs)) : Soup :=
  {| tag := @tag bs;
     exc := @exc bs;
     str_exc := @str_exc bs;
     BeautifulSoup := @BeautifulSoup bs;
     select := @select bs;
     select_one := @select_one bs;
     get := @get bs;
     getitem := @getitem bs;
     get_text := fun t =>
       match fault t with
       | Some e => raise e
       | None => @get_text bs t
       end |}.

(** ** Sample pages

    Markup of small listing pages together with the trees the HTML
    parser builds for them. *)

Module Samples.

Import Dom.

Definition span (s : string) : node := Element "span" [] [Text s].

(** A listing entry: title link, and a metadata line with its spans. *)
Definition entry (link_attrs : attrs) (link_text : list node) (meta : list node) : node :=
  Element "ytd-grid-video-renderer" []
    [ Element "a" (("id", "video-title") :: link_attrs) link_text;
      Element "div" [("id", "metadata-line")] meta ].

(** Three entries: an absolute link with abbreviated views, a relative
    link, and an entry without a title. *)
Definition listing_html : string :=
  "<ytd-grid-video-renderer><a id='video-title' href='https://youtu.be/x1' title='Alpha'>Alpha</a><div id='metadata-line'><span>1.1K views</span><span>3 days ago</span></div></ytd-grid-video-renderer><ytd-grid-video-renderer><a id='video-title' href='/watch?v=abc'>Beta</a><div id='metadata-line'><span>523 views</span><span>1 week ago</span></div></ytd-grid-video-renderer><ytd-grid-video-renderer><a id='video-title' href='/watch?v=nil'></a><div id='metadata-line'><span>7 views</span><span>1 day ago</span></div></ytd-grid-video-renderer>".

Definition listing_tree : list node :=
  [ entry [("href", "https://youtu.be/x1"); ("title", "Alpha")] [Text "Alpha"]
      [span "1.1K views"; span "3 days ago"];
    entry [("href", "/watch?v=abc")] [Text "Beta"]
      [span "523 views"; span "1 week ago"];
    entry [("href", "/watch?v=nil")] []
      [span "7 views"; span "1 day ago"] ].

(** One entry whose metadata line has a single span, followed by a meta
    block with two. *)
Definition fallthrough_html : string :=
  "<ytd-grid-video-renderer><a id='video-title' href='/watch?v=1' title='T'>T</a><div id='metadata-line'><span>5 views</span></div><ytd-video-meta-block><span>7 views</span><span>2 days ago</span></ytd-video-meta-block></ytd-grid-video-renderer>".

Definition fallthrough_tree : list node :=
  [ Element "ytd-grid-video-renderer" []
      [ Element "a" [("id", "video-title"); ("href", "/watch?v=1"); ("title", "T")] [Text "T"];
        Element "div" [("id", "metadata-line")] [span "5 views"];
        Element "ytd-video-meta-block" [] [span "7 views"; span "2 days ago"] ] ].

(** One entry whose view text carries a minus sign. *)
Definition negative_html : string :=
  "<ytd-grid-video-renderer><a id='video-title' href='/watch?v=2' title='N'>N</a><div id='metadata-line'><span>-5 views</span><span>now</span></div></ytd-grid-video-renderer>".

Definition negative_tree : list node :=
  [ entry [("href", "/watch?v=2"); ("title", "N")] [Text "N"]
      [span "-5 views"; span "now"] ].

(** A page without any listing entry. *)
Definition plain_html : string := "<html><body><p>Nothing here</p></body></html>".

Definition plain_tree : list node :=
  [ Element "html" [] [ Element "body" [] [ Element "p" [] [Text "Nothing here"] ] ] ].

(** One entry that has a link target but no title. *)
Definition untitled_html : string :=
  "<ytd-grid-video-renderer><a id='video-title' href='/watch?v=nil'></a><div id='metadata-line'></div></ytd-grid-video-renderer>".

Definition untitled_tree : list node :=
  [ entry [("href", "/watch?v=nil")] [] [] ].

(** Entries found by the second container selector only. *)
Definition rich_html : string :=
  "<ytd-rich-item-renderer><div id='dismissible'><a id='video-title-link' href='/watch?v=r1' title='R1'></a></div></ytd-rich-item-renderer><ytd-rich-item-renderer><div id='dismissible'><a id='video-title-link' href='/watch?v=r2' title='R2'></a></div></ytd-rich-item-renderer>".

Definition rich_item (href title : string) : node :=
  Element "ytd-rich-item-renderer" []
    [ Element "div" [("id", "dismissible")]
        [ Element "a" [("id", "video-title-link"); ("href", href); ("title", title)] [] ] ].

Definition rich_tree : list node :=
  [ rich_item "/watch?v=r1" "R1"; rich_item "/watch?v=r2" "R2" ].

(** One entry whose metadata line has a single span and nothing else. *)
Definition single_html : string :=
  "<ytd-grid-video-renderer><a id='video-title' href='/watch?v=3' title='S'>S</a><div id='metadata-line'><span>9 views</span></div></ytd-grid-video-renderer>".

Definition single_tree : list node :=
  [ entry [("href", "/watch?v=3"); ("title", "S")] [Text "S"] [span "9 views"] ].

Definition pages : list (string * list node) :=
  [ (listing_html, listing_tree);
    (single_html, single_tree);
    (fallthrough_html, fallthrough_tree);
    (negative_html, negative_tree);
    (plain_html, plain_tree);
    (untitled_html, untitled_tree);
    (rich_html, rich_tree) ].

Fixpoint parse_page (table : list (string * list node)) (html : string)
  : result string (list node) :=
  match table with
  | [] => raise "markup outside the sample pages"
  | (h, t) :: table' => if String.eqb html h then ret t else parse_page table' html
  end.

(** The HTML parser on the sample pages. *)
Definition html_parser (html : string) : result string (list node) :=
  parse_page pages html.

Definition bs4 : Soup := Dom.soup html_parser.

(** A clock for the examples. *)
Definition clock (n : nat) : string :=
  match n with
  | O => "2024-01-01 10:00:00"
  | _ => "2024-01-01 10:00:01"
  end.

Definition later (n : nat) : string := "2025-06-30 23:59:59".

(** The containers of a page, as the first container selector finds
    them. *)
Definition containers (tree : list node) : list Dom.elem :=
  match Dom.css_select (Dom.document tree) "ytd-grid-video-renderer" with
  | inr l => l
  | inl _ => []
  end.

Definition entry_of (tree : list node) (n : nat) : Dom.elem :=
  nth n (containers tree) (Dom.document []).

Definition first_entry : Dom.elem := entry_of listing_tree 0.
Definition second_entry : Dom.elem := entry_of listing_tree 1.
Definition third_entry : Dom.elem := entry_of listing_tree 2.
Definition fallthrough_entry : Dom.elem := entry_of fallthrough_tree 0.
Definition untitled_entry : Dom.elem := entry_of untitled_tree 0.
Definition single_entry : Dom.elem := entry_of single_tree 0.

(** The spans a metadata selector finds below a container. *)
Definition spans_of (e : Dom.elem) (selector : string) : list Dom.elem :=
  match Dom.css_select e selector with
  | inr l => l
  | inl _ => []
  end.

Definition span_of (e : Dom.elem) (selector : string) (n : nat) : Dom.elem :=
  nth n (spans_of e selector) (Dom.document []).

(** The elements the second container selector finds on the rich page. *)
Definition rich_items : list Dom.elem :=
  spans_of (Dom.document rich_tree) "ytd-rich-item-renderer".

(** The records of the listing page under [clock]. *)
Definition alpha_record : video :=
  mk_video "Alpha" "https://youtu.be/x1" 1100 "3 days ago" (clock 0).

Definition beta_record (n : nat) : video :=
  mk_video "Beta" "https://www.youtube.com/watch?v=abc" 523 "1 week ago" (clock n).

Definition listing_records : list video := [alpha_record; beta_record 1].

(** [bs4] with [get_text] failing on the spans of the listing's first
    entry. *)
Definition fault_first (t : Dom.elem) : option string :=
  match t with
  | Dom.mk_elem _ "span" _ [Text "1.1K views"] => Some "injected failure"
  | _ => None
  end.

Definition faulty_bs4 : Soup := with_fault bs4 fault_first.

End Samples.

(** ** More of the built-ins: suffix test, slices, split and join, [str(int)] *)

Module PyExt.

(** [s.endswith(suffix)] *)
Fixpoint endswith (s suffix : string) : bool :=
  (String.eqb s suffix
   || match s with
      | EmptyString => false
      | String _ s' => endswith s' suffix
      end)%bool.

(** [s[:n]] *)
Fixpoint take (n : nat) (s : string) : string :=
  match n, s with
  | S n', String c s' => String c (take n' s')
  | _, _ => EmptyString
  end.

(** [s[k:]] *)
Fixpoint drop (k : nat) (s : string) : string :=
  match k, s with
  | S k', String _ s' => drop k' s'
  | _, _ => s
  end.

(** [s[-n:]] for a positive [n] *)
Definition last_chars (n : nat) (s : string) : string :=
  drop (String.length s - n) s.

(** [l[-n:]] for a list and a positive [n] *)
Definition last_items {A : Type} (n : nat) (l : list A) : list A :=
  skipn (List.length l - n) l.

Definition newline : ascii := ascii_of_nat 10.

(** [s.split(sep)] for a separator of one character *)
Definition split (s : string) (sep : ascii) : list string := Dom.split sep s.

(** [sep.join(l)] *)
Definition join (sep : string) (l : list string) : string := String.concat sep l.

(** [s.count(c)] for one character *)
Fixpoint count (c : ascii) (s : string) : nat :=
  match s with
  | EmptyString => O
  | String x s' => ((if Ascii.eqb x c then 1 else 0) + count c s')%nat
  end.

Definition digit_char (d : Z) : ascii := ascii_of_nat (48 + Z.to_nat d).

(** The decimal digits of [n >= 0] in front of [acc]; [fuel] bounds their
    number. *)
Fixpoint digits_of (fuel : nat) (n : Z) (acc : string) : string :=
  match fuel with
  | O => acc
  | S fuel' =>
      let acc' := String (digit_char (n mod 10)) acc in
      if n <? 10 then acc' else digits_of fuel' (n / 10) acc'
  end.

Definition str_of_nonneg (n : Z) : string :=
  digits_of (S (Z.to_nat (Z.log2 n))) n EmptyString.

(** [str(n)] for an [int] *)
Definition str_of_int (n : Z) : string :=
  if n <? 0 then String "-" (str_of_nonneg (- n)) else str_of_nonneg n.

End PyExt.

(** ** [call_zenrows] *)

Module Requests.

(** What [requests.get] returns. *)
Record response : Type := mk_response {
  status_code : Z;
  text : string
}.

(** An exception out of [requests.get]: whether it is an instance of
    [Timeout], of [ConnectionError], of [RequestException], and its
    [str(e)]. *)
Record exception : Type := mk_exception {
  is_timeout : bool;
  is_connection_error : bool;
  is_request_exception : bool;
  str : string
}.

End Requests.

Import Requests.

Definition zenrows_url : string := "https://api.zenrows.com/v1/".

(** The [params] dictionary, in insertion order. *)
Definition zenrows_params (url api_key : string) (js_render : bool) (wait_time : Z)
  : list (string * string) :=
  [("apikey", api_key); ("url", url)]
  ++ (if js_render
      then [("js_render", "true"); ("wait", PyExt.str_of_int wait_time)]
      else []).

(** What [call_zenrows] returns: success, text or [None], message or
    [None]. *)
Definition fetched : Type := (bool * option string * option string)%type.

Definition timeout_msg : string :=
  "Request timeout - ZenRows API took too long to respond".

Section CallZenrows.

(** [requests.get(url, params=params, timeout=timeout)] *)
Variable requests_get :
  string -> list (string * string) -> Z -> result exception response.

(** The body of the [try] block. *)
Definition call_zenrows_try (url api_key : string) (js_render : bool) (wait_time : Z)
  : result exception fetched :=
  (response <- requests_get zenrows_url
                 (zenrows_params url api_key js_render wait_time) 60 ;;
   if status_code response =? 200 then
     ret (true, Some (text response), None)
   else if status_code response =? 401 then
     ret (false, None,
          Some ("401 Unauthorized - Invalid API Key. Response: "
                ++ PyExt.take 500 (text response)))
   else if status_code response =? 403 then
     ret (false, None,
          Some ("403 Forbidden - Access denied. Response: "
                ++ PyExt.take 500 (text response)))
   else if status_code response =? 400 then
     ret (false, None,
          Some ("400 Bad Request - Invalid parameters. Response: "
                ++ PyExt.take 500 (text response)))
   else if status_code response =? 500 then
     ret (false, None,
          Some ("500 Internal Server Error - ZenRows API issue. Response: "
                ++ PyExt.take 500 (text response)))
   else
     ret (false, None,
          Some ("HTTP " ++ PyExt.str_of_int (status_code response) ++ " - "
                ++ PyExt.take 500 (text response))))%py.

(** The [except] clauses, in their order. *)
Definition call_zenrows_except (e : exception) : fetched :=
  if is_timeout e then (false, None, Some timeout_msg)
  else if is_connection_error e then
    (false, None, Some ("Connection error - " ++ str e))
  else if is_request_exception e then
    (false, None, Some ("Request exception - " ++ str e))
  else (false, None, Some ("Unexpected error - " ++ str e)).

Definition call_zenrows (url api_key : string) (js_render : bool) (wait_time : Z)
  : fetched :=
  match call_zenrows_try url api_key js_render wait_time with
  | inr r => r
  | inl e => call_zenrows_except e
  end.

End CallZenrows.

(** ** The parts of [main] around the pipeline *)

(** The channel address made to point to the videos page. *)
Definition ensure_videos (channel_url : string) : string :=
  if negb (PyStr.contains "/videos" channel_url) then
    if PyExt.endswith channel_url "/" then channel_url ++ "videos"
    else channel_url ++ "/videos"
  else channel_url.

(** [api_key[-8:]], the part of the key that is displayed. *)
Definition key_tail (api_key : string) : string := PyExt.last_chars 8 api_key.

(** The text handed to [st.code] for a log file with content
    [log_content], or [None] when the file is reported as empty. *)
Definition displayed_log (log_content : string) : option string :=
  if truthy (Some log_content) then
    let lines := PyExt.split log_content PyExt.newline in
    let display_lines :=
      if Nat.ltb 100 (List.length lines) then PyExt.last_items 100 lines
      else lines in
    Some (PyExt.join (String PyExt.newline "") display_lines)
  else None.

Section Main.

Context {bs : Soup}.
Variable requests_get :
  string -> list (string * string) -> Z -> result exception response.
Variable now : nat -> string.

(** One run of the script with the button state [scrape_button]:
    [scraped_data] is the table kept in the session state, and the
    result is the table kept after the run.  Without a key the script
    stops at once.  A text of [None] cannot be parsed and leaves the
    table as it is. *)
Definition scrape_session (api_key : option string) (scrape_button : bool)
    (channel_url : string) (js_render : bool) (wait_time : Z)
    (scraped_data : option (list video)) : option (list video) :=
  match api_key with
  | Some key =>
      if negb (truthy (Some key)) then scraped_data
      else if scrape_button then
        if negb (truthy (Some channel_url)) then scraped_data
        else
          let channel_url := ensure_videos channel_url in
          let '(success, html_content, error) :=
            call_zenrows requests_get channel_url key js_render wait_time in
          if negb success then scraped_data
          else
            match html_content with
            | Some html =>
                let '(success, df, error) := parse_html now html in
                if negb success then scraped_data else df
            | None => scraped_data
            end
      else scraped_data
  | None => scraped_data
  end.

End Main.

(** What one container gives to the table, apart from the time. *)
Definition contribution {bs : Soup} (element : tag)
  : list (string * string * Z * string) :=
  match extract element with
  | inr (Some title, Some url, views, posted) =>
      if (truthy (Some title) && truthy (Some url))%bool
      then [(title, url, views, posted)]
      else []
  | _ => []
  end.

(** The title a matched element gives: its [title] attribute when that
    is not empty, and otherwise its text. *)
Definition title_value {bs : Soup} (title_elem : tag) (v : string) : Prop :=
  (get title_elem "title" = inr (Some v) /\ v <> "")
  \/ (exists attr,
        get title_elem "title" = inr attr
        /\ truthy attr = false
        /\ get_text title_elem = inr v).

(** A title selector that matches nothing below [element], or an
    element that gives the empty title. *)
Definition no_title_at {bs : Soup} (element : tag) (selector : string) : Prop :=
  select_one element selector = inr None
  \/ (exists title_elem,
        select_one element selector = inr (Some title_elem)
        /\ title_value title_elem "").

(** A metadata selector that finds no span below [element], or exactly
    one, whose text can be read. *)
Definition one_or_no_span {bs : Soup} (element : tag) (selector : string) : Prop :=
  select element selector = inr []
  \/ (exists s0 t, select element selector = inr [s0] /\ get_text s0 = inr t).

(** The float of a whole number [q] below [2^53]: the number itself,
    with its top bit moved to position 53. *)
Definition whole_float (q : positive) (x : float) : Prop :=
  exists m,
    x = S754_finite false m (Z.pos (digits2_pos q) - 53)
    /\ Z.pos m = Z.pos q * 2 ^ (53 - Z.pos (digits2_pos q)).

(** * Properties *)

Local Open Scope list_scope.

(** ** The exception monad *)

Lemma bind_inr {E A B : Type} (m : result E A) (k : A -> result E B) (b : B) :
  bind m k = inr b -> exists a, m = inr a /\ k a = inr b.
Proof.
  destruct m as [e | a]; simpl; intros Hk.
  - discriminate.
  - exists a. split; [reflexivity | exact Hk].
Qed.

(** Split a successful [bind] in the hypothesis [H]. *)
Ltac split_bind H :=
  let a := fresh "a" in
  let Ha := fresh "Ha" in
  apply bind_inr in H; destruct H as [a [Ha H]].

Lemma truthy_nonempty (s : string) : truthy (Some s) = true -> s <> "".
Proof. destruct s; simpl; [discriminate | intros _ H; discriminate H]. Qed.

Lemma app_one_neq {A : Type} (l : list A) (a : A) : l ++ [a] <> l.
Proof.
  intros H. apply (f_equal (@List.length A)) in H.
  rewrite length_app in H. simpl in H. lia.
Qed.

(** ** The loop over the containers *)

Section Containers.

Context {bs : Soup}.
Variable now : nat -> string.

Lemma parse_element_step (videos : list video) (element : tag) :
  step now videos element (parse_element now videos element).
Proof.
  unfold parse_element.
  destruct (extract element) as [e | [[[title url] views] posted]] eqn:Hx.
  - eapply step_raised; eassumption.
  - destruct title as [title |]; [destruct url as [url |] |].
    + destruct (truthy (Some title) && truthy (Some url))%bool eqn:Ht.
      * apply andb_prop in Ht. destruct Ht.
        eapply step_added; eassumption.
      * eapply step_dropped; eassumption.
    + eapply step_dropped; [eassumption |]. simpl. apply andb_false_r.
    + eapply step_dropped; [eassumption |]. reflexivity.
Qed.

Lemma fold_parse_element_invariant (P : video -> Prop) :
  (forall videos element v,
      parse_element now videos element = videos ++ [v] -> P v) ->
  forall elements acc,
    Forall P acc -> Forall P (fold_left (parse_element now) elements acc).
Proof.
  intros Hadd elements.
  induction elements as [| element elements IH]; intros acc Hacc; simpl.
  - exact Hacc.
  - apply IH.
    pose proof (parse_element_step acc element) as Hs.
    remember (parse_element now acc element) as r eqn:Hr.
    destruct Hs as [videos el e Hx | videos el t u n p Hx Hf
                   | videos el t u n p Hx Ht Hu].
    + exact Hacc.
    + exact Hacc.
    + apply Forall_app. split; [exact Hacc |].
      constructor; [| constructor].
      eapply Hadd. symmetry. exact Hr.
Qed.

Lemma parse_html_try_table (html : string) (b : bool) (vs : list video)
    (m : option string) :
  parse_html_try now html = inr (b, Some vs, m) ->
  exists soup elements,
    BeautifulSoup html = inr soup
    /\ video_elements soup selectors = inr elements
    /\ vs = parse_elements now elements
    /\ vs <> [] /\ b = true /\ m = None.
Proof.
  unfold parse_html_try. intros H.
  split_bind H. rename a into soup.
  split_bind H. rename a into elements.
  exists soup, elements.
  destruct elements as [| el els]; [discriminate |].
  destruct (parse_elements now (el :: els)) as [| v vs'] eqn:Hp; [discriminate |].
  inversion H; subst.
  split; [assumption |]. split; [assumption |].
  split; [reflexivity |].
  split; [discriminate |]. split; reflexivity.
Qed.

Lemma parse_html_table (html : string) (b : bool) (vs : list video)
    (m : option string) :
  parse_html now html = (b, Some vs, m) ->
  parse_html_try now html = inr (b, Some vs, m).
Proof.
  unfold parse_html, parse_html_exc, try_except.
  destruct (parse_html_try now html) as [e | r]; simpl.
  - discriminate.
  - intros ->. reflexivity.
Qed.

Lemma parse_element_added (videos : list video) (element : tag) (v : video) :
  parse_element now videos element = videos ++ [v] ->
  exists title url views posted,
    extract element = inr (Some title, Some url, views, posted)
    /\ truthy (Some title) = true
    /\ truthy (Some url) = true
    /\ v = mk_video title url views posted (now (List.length videos)).
Proof.
  intros Heq.
  pose proof (parse_element_step videos element) as Hs.
  remember (parse_element now videos element) as r eqn:Hr.
  destruct Hs as [videos el e Hx | videos el t u n p Hx Hf
                 | videos el t u n p Hx Ht Hu].
  - symmetry in Heq. apply app_one_neq in Heq. contradiction.
  - symmetry in Heq. apply app_one_neq in Heq. contradiction.
  - apply app_inv_head in Heq. inversion Heq; subst v.
    exists t, u, n, p. repeat split; assumption.
Qed.

Lemma parse_element_raised (videos : list video) (element : tag) (e : exc) :
  extract element = inl e -> parse_element now videos element = videos.
Proof. unfold parse_element. intros ->. reflexivity. Qed.

Lemma parse_element_dropped (videos : list video) (element : tag)
    (title url : option string) (views : Z) (posted : string) :
  extract element = inr (title, url, views, posted) ->
  truthy title = false \/ truthy url = false ->
  parse_element now videos element = videos.
Proof.
  unfold parse_element. intros -> Hf.
  destruct title as [title |]; [| reflexivity].
  destruct url as [url |]; [| reflexivity].
  destruct Hf as [Hf | Hf]; rewrite Hf; simpl; [reflexivity |].
  rewrite andb_false_r. reflexivity.
Qed.

Lemma extract_inr (element : tag) (title url : option string) (views : Z)
    (posted : string) :
  extract element = inr (title, url, views, posted) ->
  title_loop element title_selectors None = inr title
  /\ extract_url element = inr url
  /\ metadata_loop element metadata_selectors 0 "N/A"%string = inr (views, posted).
Proof.
  unfold extract. intros H.
  split_bind H. split_bind H. split_bind H.
  destruct a1 as [n p]. inversion H; subst.
  repeat split; assumption.
Qed.

Lemma extract_url_some (element : tag) (url : string) :
  extract_url element = inr (Some url) ->
  exists ue href,
    select_one element url_selector = inr (Some ue)
    /\ getitem ue "href"%string = inr href
    /\ url = if PyStr.startswith href "/"
             then (youtube_origin ++ href)%string else href.
Proof.
  unfold extract_url. intros H.
  split_bind H. destruct a as [ue |]; [| discriminate].
  split_bind H. destruct (truthy a); [| discriminate].
  split_bind H. rename a0 into href.
  exists ue, href. inversion H; subst.
  repeat split; assumption.
Qed.

Lemma parse_html_try_shape (html : string) (r : outcome) :
  parse_html_try now html = inr r ->
  r = (false, None, Some no_elements_msg)
  \/ r = (false, None, Some no_videos_msg)
  \/ exists v vs, r = (true, Some (v :: vs), None).
Proof.
  unfold parse_html_try. intros H.
  split_bind H. split_bind H.
  destruct a0 as [| el els].
  - left. inversion H. reflexivity.
  - destruct (parse_elements now (el :: els)) as [| v vs].
    + right. left. inversion H. reflexivity.
    + right. right. exists v, vs. inversion H. reflexivity.
Qed.

Lemma parse_html_shape (html : string) :
  (exists msg, parse_html now html = (false, None, Some msg))
  \/ exists v vs, parse_html now html = (true, Some (v :: vs), None).
Proof.
  unfold parse_html, parse_html_exc, try_except.
  destruct (parse_html_try now html) as [e | r] eqn:Hr; simpl.
  - left. eexists. reflexivity.
  - apply parse_html_try_shape in Hr.
    destruct Hr as [-> | [-> | [v [vs ->]]]].
    + left. eexists. reflexivity.
    + left. eexists. reflexivity.
    + right. exists v, vs. reflexivity.
Qed.

Lemma video_elements_skip (soup : tag) (pre rest : list string) :
  Forall (fun s => select soup s = inr []) pre ->
  video_elements soup (pre ++ rest) = video_elements soup rest.
Proof.
  induction 1 as [| s pre Hs _ IH]; simpl.
  - reflexivity.
  - rewrite Hs. simpl. exact IH.
Qed.

(** ** Claims about the container loop *)

(** C1: every record of the output table has a non-empty title and a
    non-empty url, and a container whose extraction gives an empty (or
    no) title or url adds no record to the table. *)
Theorem records_need_title_and_url :
  (forall html b vs m,
      parse_html now html = (b, Some vs, m) ->
      Forall (fun v => Title v <> ""%string /\ URL v <> ""%string) vs)
  /\ (forall videos element title url views posted,
         extract element = inr (title, url, views, posted) ->
         truthy title = false \/ truthy url = false ->
         parse_element now videos element = videos).
Proof.
  split.
  - intros html b vs m H.
    apply parse_html_table in H. apply parse_html_try_table in H.
    destruct H as [soup [elements [_ [_ [-> _]]]]].
    unfold parse_elements.
    apply fold_parse_element_invariant; [| constructor].
    intros videos element v Hadd.
    apply parse_element_added in Hadd.
    destruct Hadd as [t [u [n [p [_ [Ht [Hu ->]]]]]]]. simpl.
    split; apply truthy_nonempty; assumption.
  - intros videos element title url views posted Hx Hf.
    eapply parse_element_dropped; eassumption.
Qed.

(** C2: the container selectors are tried in order and the first one
    with at least one match gives the whole set of containers; what a
    later selector would match is not used. *)
Theorem first_matching_selector_wins :
  forall soup pre selector post elements,
    Forall (fun s => select soup s = inr []) pre ->
    select soup selector = inr elements ->
    elements <> [] ->
    video_elements soup (pre ++ selector :: post) = inr elements.
Proof.
  intros soup pre selector post elements Hpre Hsel Hne.
  rewrite video_elements_skip by assumption.
  simpl. rewrite Hsel. simpl.
  destruct elements; [contradiction | reflexivity].
Qed.

(** C5: there is no empty success.  When every container selector
    matches nothing the call fails with the "no video elements" message;
    when containers are found but none gives a record it fails with the
    different "no videos parsed" message; a failure carries no table and
    a success carries at least one record. *)
Theorem no_empty_success :
  forall html,
    (forall soup,
        BeautifulSoup html = inr soup ->
        Forall (fun s => select soup s = inr []) selectors ->
        parse_html now html = (false, None, Some no_elements_msg))
    /\ (forall soup elements,
           BeautifulSoup html = inr soup ->
           video_elements soup selectors = inr elements ->
           elements <> [] ->
           parse_elements now elements = [] ->
           parse_html now html = (false, None, Some no_videos_msg))
    /\ (forall table m,
           parse_html now html = (true, table, m) ->
           exists v vs, table = Some (v :: vs) /\ m = None)
    /\ (forall table m,
           parse_html now html = (false, table, m) ->
           table = None /\ exists msg, m = Some msg)
    /\ no_elements_msg <> no_videos_msg.
Proof.
  intros html.
  split; [| split; [| split; [| split]]].
  - intros soup Hsoup Hnone.
    pose proof (video_elements_skip soup selectors [] Hnone) as Hv.
    rewrite app_nil_r in Hv.
    unfold parse_html, parse_html_exc, parse_html_try.
    rewrite Hsoup. cbn [bind]. rewrite Hv. reflexivity.
  - intros soup elements Hsoup Hels Hne Hnil.
    unfold parse_html, parse_html_exc, parse_html_try.
    rewrite Hsoup. cbn [bind]. rewrite Hels. cbn [bind].
    destruct elements as [| el els]; [contradiction |].
    rewrite Hnil. reflexivity.
  - intros table m H.
    destruct (parse_html_shape html) as [[msg H'] | [v [vs H']]];
      rewrite H' in H; inversion H; subst.
    exists v, vs. split; reflexivity.
  - intros table m H.
    destruct (parse_html_shape html) as [[msg H'] | [v [vs H']]];
      rewrite H' in H; inversion H; subst.
    split; [reflexivity | exists msg; reflexivity].
  - discriminate.
Qed.

(** C8: the url of a record comes from the reference of the matched
    link: the origin followed by the reference when the reference starts
    with [/], the reference itself otherwise. *)
Theorem url_absolutization :
  forall videos element v,
    parse_element now videos element = videos ++ [v] ->
    exists url_elem href,
      select_one element url_selector = inr (Some url_elem)
      /\ getitem url_elem "href"%string = inr href
      /\ (PyStr.startswith href "/" = true ->
          URL v = (youtube_origin ++ href)%string)
      /\ (PyStr.startswith href "/" = false -> URL v = href).
Proof.
  intros videos element v Hadd.
  apply parse_element_added in Hadd.
  destruct Hadd as [t [u [n [p [Hx [_ [_ ->]]]]]]].
  apply extract_inr in Hx. destruct Hx as [_ [Hu _]].
  apply extract_url_some in Hu.
  destruct Hu as [ue [href [Hsel [Hitem ->]]]].
  exists ue, href. simpl.
  repeat split; try assumption; intros ->; reflexivity.
Qed.

(** C9: a container whose extraction raises is skipped and the loop
    goes on with the next one, and no exception leaves [parse_html]:
    every call returns, either a success with its records or a failure
    with a message. *)
Theorem exceptions_are_contained :
  (forall pre element post e,
      extract element = inl e ->
      parse_elements now (pre ++ element :: post)
      = parse_elements now (pre ++ post))
  /\ (forall html,
         exists r,
           parse_html_exc now html = inr r
           /\ parse_html now html = r
           /\ ((exists v vs, r = (true, Some (v :: vs), None))
               \/ (exists msg, r = (false, None, Some msg)))).
Proof.
  split.
  - intros pre element post e Hx.
    unfold parse_elements. rewrite !fold_left_app. simpl.
    rewrite (parse_element_raised _ _ _ Hx). reflexivity.
  - intros html.
    unfold parse_html, parse_html_exc, try_except.
    destruct (parse_html_try now html) as [e | r] eqn:Hr.
    + eexists. split; [reflexivity |]. split; [reflexivity |].
      right. eexists. reflexivity.
    + exists r. split; [reflexivity |]. split; [reflexivity |].
      apply parse_html_try_shape in Hr.
      destruct Hr as [-> | [-> | [v [vs ->]]]].
      * right. eexists. reflexivity.
      * right. eexists. reflexivity.
      * left. exists v, vs. reflexivity.
Qed.

Lemma parse_element_content (now1 now2 : nat -> string)
    (acc1 acc2 : list video) (element : tag) :
  map content acc1 = map content acc2 ->
  map content (parse_element now1 acc1 element)
  = map content (parse_element now2 acc2 element).
Proof.
  intros Hacc. unfold parse_element.
  destruct (extract element) as [e | [[[[t |] [u |]] n] p]]; try exact Hacc.
  destruct (truthy (Some t) && truthy (Some u))%bool; [| exact Hacc].
  rewrite !map_app. rewrite Hacc. reflexivity.
Qed.

Lemma parse_elements_content (now1 now2 : nat -> string) (elements : list tag) :
  forall acc1 acc2,
    map content acc1 = map content acc2 ->
    map content (fold_left (parse_element now1) elements acc1)
    = map content (fold_left (parse_element now2) elements acc2).
Proof.
  induction elements as [| element elements IH]; intros acc1 acc2 Hacc; simpl.
  - exact Hacc.
  - apply IH. apply parse_element_content. exact Hacc.
Qed.

(** C10: two runs on the same markup give the same outcome and the
    same records in the same order, except for the time of capture:
    title, url, views and posted label do not depend on the clock. *)
Theorem deterministic_up_to_capture_time :
  forall (now1 now2 : nat -> string) (html : string),
    outcome_content (parse_html now1 html)
    = outcome_content (parse_html now2 html).
Proof.
  intros now1 now2 html.
  unfold parse_html, parse_html_exc, parse_html_try, try_except.
  destruct (BeautifulSoup html) as [e | soup]; cbn [bind]; [reflexivity |].
  destruct (video_elements soup selectors) as [e | elements]; cbn [bind];
    [reflexivity |].
  destruct elements as [| el els]; [reflexivity |].
  pose proof (parse_elements_content now1 now2 (el :: els) [] [] eq_refl) as Hc.
  unfold parse_elements.
  destruct (fold_left (parse_element now1) (el :: els) []) as [| v1 vs1];
    destruct (fold_left (parse_element now2) (el :: els) []) as [| v2 vs2];
    try discriminate Hc.
  - reflexivity.
  - unfold ret, outcome_content. cbn [option_map]. rewrite Hc. reflexivity.
Qed.

Lemma metadata_loop_skip (element : tag) (rest : list string) (views : Z)
    (posted : string) :
  Forall (fun s => select element s = inr []) rest ->
  metadata_loop element rest views posted = inr (views, posted).
Proof.
  induction 1 as [| s rest Hs _ IH]; simpl.
  - reflexivity.
  - rewrite Hs. simpl. exact IH.
Qed.

(** C6, as amended: a metadata selector with exactly one span sets the
    view count from it, leaves the posted label as it is, and the search
    goes on with the next selector; only a selector with two or more
    spans ends the search, taking views from the first and the label
    from the second; a selector without spans changes nothing.  So a
    single span decides the outcome only when no later selector matches
    anything. *)
Theorem metadata_single_span_continues :
  forall element selector rest views posted,
    (forall s0 text,
        select element selector = inr [s0] ->
        get_text s0 = inr text ->
        metadata_loop element (selector :: rest) views posted
        = metadata_loop element rest (convert_views_to_number text) posted)
    /\ (forall s0 s1 more t0 t1,
           select element selector = inr (s0 :: s1 :: more) ->
           get_text s0 = inr t0 ->
           get_text s1 = inr t1 ->
           metadata_loop element (selector :: rest) views posted
           = inr (convert_views_to_number t0, t1))
    /\ (select element selector = inr [] ->
        metadata_loop element (selector :: rest) views posted
        = metadata_loop element rest views posted)
    /\ (forall s0 text,
           select element selector = inr [s0] ->
           get_text s0 = inr text ->
           Forall (fun s => select element s = inr []) rest ->
           metadata_loop element (selector :: rest) views posted
           = inr (convert_views_to_number text, posted)).
Proof.
  intros element selector rest views posted.
  split; [| split; [| split]].
  - intros s0 text Hsel Htext. simpl. rewrite Hsel. simpl.
    rewrite Htext. reflexivity.
  - intros s0 s1 more t0 t1 Hsel H0 H1. simpl. rewrite Hsel. simpl.
    rewrite H0. simpl. rewrite H1. reflexivity.
  - intros Hsel. simpl. rewrite Hsel. reflexivity.
  - intros s0 text Hsel Htext Hrest. simpl. rewrite Hsel. simpl.
    rewrite Htext. simpl. apply metadata_loop_skip. exact Hrest.
Qed.

End Containers.

(** ** The claims at the sample pages *)

Lemma records_need_title_and_url_witness :
  @parse_html Samples.bs4 Samples.clock Samples.listing_html
  = (true, Some Samples.listing_records, None)
  /\ Forall (fun v => Title v <> ""%string /\ URL v <> ""%string)
       Samples.listing_records
  /\ @parse_element Samples.bs4 Samples.clock [] Samples.third_entry = [].
Proof.
  split; [vm_compute; reflexivity |]. split.
  - apply (proj1 (@records_need_title_and_url Samples.bs4 Samples.clock)
             Samples.listing_html true Samples.listing_records None).
    vm_compute. reflexivity.
  - apply (proj2 (@records_need_title_and_url Samples.bs4 Samples.clock)
             [] Samples.third_entry (Some ""%string)
             (Some "https://www.youtube.com/watch?v=nil"%string)
             7%Z "1 day ago"%string).
    + vm_compute. reflexivity.
    + left. reflexivity.
Defined.

Lemma first_matching_selector_wins_witness :
  List.length Samples.rich_items = 2%nat
  /\ @video_elements Samples.bs4 (Dom.document Samples.rich_tree) selectors
     = inr Samples.rich_items.
Proof.
  split; [reflexivity |].
  apply (@first_matching_selector_wins Samples.bs4
           (Dom.document Samples.rich_tree)
           ["ytd-grid-video-renderer"%string]
           "ytd-rich-item-renderer"%string
           ["div#dismissible"%string]
           Samples.rich_items).
  - constructor; [vm_compute; reflexivity | constructor].
  - vm_compute. reflexivity.
  - vm_compute. discriminate.
Defined.

Lemma no_empty_success_witness :
  @parse_html Samples.bs4 Samples.clock Samples.plain_html
  = (false, None, Some no_elements_msg)
  /\ @parse_html Samples.bs4 Samples.clock Samples.untitled_html
     = (false, None, Some no_videos_msg)
  /\ (exists v vs, Some Samples.listing_records = Some (v :: vs)
                   /\ @None string = None)
  /\ (@None (list video) = None
      /\ exists msg, Some no_elements_msg = Some msg).
Proof.
  pose proof (@no_empty_success Samples.bs4 Samples.clock Samples.plain_html)
    as [Hnone [_ [_ [Hfail _]]]].
  pose proof (@no_empty_success Samples.bs4 Samples.clock Samples.untitled_html)
    as [_ [Hzero _]].
  pose proof (@no_empty_success Samples.bs4 Samples.clock Samples.listing_html)
    as [_ [_ [Hok _]]].
  split; [| split; [| split]].
  - apply (Hnone (Dom.document Samples.plain_tree)).
    + vm_compute. reflexivity.
    + repeat constructor.
  - apply (Hzero (Dom.document Samples.untitled_tree) [Samples.untitled_entry]).
    + vm_compute. reflexivity.
    + vm_compute. reflexivity.
    + discriminate.
    + vm_compute. reflexivity.
  - apply (Hok (Some Samples.listing_records) None).
    vm_compute. reflexivity.
  - apply (Hfail None (Some no_elements_msg)).
    vm_compute. reflexivity.
Defined.

Lemma url_absolutization_witness :
  @parse_element Samples.bs4 Samples.clock [] Samples.second_entry
  = [] ++ [Samples.beta_record 0]
  /\ exists url_elem href,
       @select_one Samples.bs4 Samples.second_entry url_selector
       = inr (Some url_elem)
       /\ @getitem Samples.bs4 url_elem "href"%string = inr href
       /\ (PyStr.startswith href "/" = true ->
           URL (Samples.beta_record 0) = (youtube_origin ++ href)%string)
       /\ (PyStr.startswith href "/" = false ->
           URL (Samples.beta_record 0) = href).
Proof.
  split; [vm_compute; reflexivity |].
  apply (@url_absolutization Samples.bs4 Samples.clock []
           Samples.second_entry (Samples.beta_record 0)).
  vm_compute. reflexivity.
Defined.

Lemma exceptions_are_contained_witness :
  @extract Samples.faulty_bs4 Samples.first_entry = inl "injected failure"%string
  /\ @parse_elements Samples.faulty_bs4 Samples.clock
       ([] ++ Samples.first_entry :: [Samples.second_entry; Samples.third_entry])
     = @parse_elements Samples.faulty_bs4 Samples.clock
         ([] ++ [Samples.second_entry; Samples.third_entry])
  /\ exists r,
       @parse_html_exc Samples.faulty_bs4 Samples.clock Samples.listing_html = inr r
       /\ @parse_html Samples.faulty_bs4 Samples.clock Samples.listing_html = r
       /\ ((exists v vs, r = (true, Some (v :: vs), None))
           \/ (exists msg, r = (false, None, Some msg))).
Proof.
  split; [vm_compute; reflexivity |]. split.
  - apply (proj1 (@exceptions_are_contained Samples.faulty_bs4 Samples.clock)
             [] Samples.first_entry
             [Samples.second_entry; Samples.third_entry]
             "injected failure"%string).
    vm_compute. reflexivity.
  - apply (proj2 (@exceptions_are_contained Samples.faulty_bs4 Samples.clock)
             Samples.listing_html).
Defined.

(** On the page whose metadata line has one span and whose meta block
    has two, the first selector finds the single span "5 views", and
    yet the outcome is taken from the meta block. *)
Lemma metadata_single_span_counterexample :
  @select Samples.bs4 Samples.fallthrough_entry "#metadata-line span"%string
  = inr [Samples.span_of Samples.fallthrough_entry "#metadata-line span" 0]
  /\ @get_text Samples.bs4
       (Samples.span_of Samples.fallthrough_entry "#metadata-line span" 0)
     = inr "5 views"%string
  /\ @metadata_loop Samples.bs4 Samples.fallthrough_entry metadata_selectors
       0%Z "N/A"%string
     = inr (7%Z, "2 days ago"%string)
  /\ @metadata_loop Samples.bs4 Samples.fallthrough_entry metadata_selectors
       0%Z "N/A"%string
     <> inr (convert_views_to_number "5 views", "N/A"%string).
Proof.
  split; [vm_compute; reflexivity |].
  split; [vm_compute; reflexivity |].
  split; [vm_compute; reflexivity |].
  vm_compute. discriminate.
Qed.

Lemma metadata_single_span_continues_witness :
  (@metadata_loop Samples.bs4 Samples.fallthrough_entry
     ("#metadata-line span"%string
        :: ["div#metadata-line span"; "ytd-video-meta-block span"]%string)
     0%Z "N/A"%string
   = @metadata_loop Samples.bs4 Samples.fallthrough_entry
       ["div#metadata-line span"; "ytd-video-meta-block span"]%string
       (convert_views_to_number "5 views") "N/A"%string)
  /\ (@metadata_loop Samples.bs4 Samples.first_entry
        ("#metadata-line span"%string :: []) 0%Z "N/A"%string
      = inr (convert_views_to_number "1.1K views", "3 days ago"%string))
  /\ (@metadata_loop Samples.bs4 Samples.untitled_entry
        ("#metadata-line span"%string :: []) 0%Z "N/A"%string
      = @metadata_loop Samples.bs4 Samples.untitled_entry [] 0%Z "N/A"%string)
  /\ (@metadata_loop Samples.bs4 Samples.single_entry
        ("div#metadata-line span"%string :: ["ytd-video-meta-block span"%string])
        0%Z "N/A"%string
      = inr (convert_views_to_number "9 views", "N/A"%string)).
Proof.
  split; [| split; [| split]].
  - apply (proj1 (@metadata_single_span_continues Samples.bs4
                    Samples.fallthrough_entry "#metadata-line span"%string
                    ["div#metadata-line span"; "ytd-video-meta-block span"]%string
                    0%Z "N/A"%string)
             (Samples.span_of Samples.fallthrough_entry "#metadata-line span" 0)
             "5 views"%string).
    + vm_compute. reflexivity.
    + vm_compute. reflexivity.
  - apply (proj1 (proj2 (@metadata_single_span_continues Samples.bs4
                           Samples.first_entry "#metadata-line span"%string
                           [] 0%Z "N/A"%string))
             (Samples.span_of Samples.first_entry "#metadata-line span" 0)
             (Samples.span_of Samples.first_entry "#metadata-line span" 1)
             [] "1.1K views"%string "3 days ago"%string).
    + vm_compute. reflexivity.
    + vm_compute. reflexivity.
    + vm_compute. reflexivity.
  - apply (proj1 (proj2 (proj2 (@metadata_single_span_continues Samples.bs4
                                  Samples.untitled_entry
                                  "#metadata-line span"%string
                                  [] 0%Z "N/A"%string)))).
    vm_compute. reflexivity.
  - apply (proj2 (proj2 (proj2 (@metadata_single_span_continues Samples.bs4
                                  Samples.single_entry
                                  "div#metadata-line span"%string
                                  ["ytd-video-meta-block span"%string]
                                  0%Z "N/A"%string)))
             (Samples.span_of Samples.single_entry "div#metadata-line span" 0)
             "9 views"%string).
    + vm_compute. reflexivity.
    + vm_compute. reflexivity.
    + constructor; [vm_compute; reflexivity | constructor].
Defined.

(** ** String lemmas *)

Lemma append_empty_r (s : string) : (s ++ "")%string = s.
Proof. induction s as [| c s IH]; simpl; [| rewrite IH]; reflexivity. Qed.

Lemma forallb_impl (p q : ascii -> bool) (s : string) :
  (forall c, p c = true -> q c = true) ->
  PyStr.forallb p s = true -> PyStr.forallb q s = true.
Proof.
  intros Hpq. induction s as [| c s IH]; simpl; [reflexivity |].
  intros H. apply andb_prop in H. destruct H as [Hc Hs].
  rewrite (Hpq c Hc). simpl. apply IH. exact Hs.
Qed.

Lemma forallb_app (p : ascii -> bool) (s t : string) :
  PyStr.forallb p (s ++ t)%string = (PyStr.forallb p s && PyStr.forallb p t)%bool.
Proof.
  induction s as [| c s IH]; simpl; [reflexivity |].
  rewrite IH. apply andb_assoc.
Qed.

Lemma prefix_head_neq (c x : ascii) (old s : string) :
  Ascii.eqb x c = false -> String.prefix (String c old) (String x s) = false.
Proof.
  intros H. simpl. destruct (ascii_dec c x) as [-> | _]; [| reflexivity].
  rewrite Ascii.eqb_refl in H. discriminate.
Qed.

(** Characters other than the first one of [old] are copied. *)
Lemma replace_from_lacks (c : ascii) (old new p s : string) :
  lacks c p = true ->
  PyStr.replace_from (String c old) new O (p ++ s)%string
  = (p ++ PyStr.replace_from (String c old) new O s)%string.
Proof.
  unfold lacks. induction p as [| x p IH]; intros H; [reflexivity |].
  simpl in H. apply andb_prop in H. destruct H as [Hx Hp].
  apply negb_true_iff in Hx.
  change ((String x p ++ s)%string) with (String x (p ++ s)%string).
  cbn [PyStr.replace_from].
  rewrite (prefix_head_neq c x old _ Hx).
  rewrite (IH Hp). reflexivity.
Qed.

Lemma replace_lacks (c : ascii) (old new p : string) :
  lacks c p = true -> PyStr.replace p (String c old) new = p.
Proof.
  intros H. unfold PyStr.replace.
  rewrite <- (append_empty_r p) at 1.
  rewrite (replace_from_lacks c old new p ""%string H).
  simpl. apply append_empty_r.
Qed.

Lemma rstrip_by_last (sp : ascii -> bool) (p : string) (c : ascii) :
  sp c = false ->
  PyStr.rstrip_by sp (p ++ String c "")%string = (p ++ String c "")%string.
Proof.
  intros Hc. induction p as [| x p IH]; simpl.
  - rewrite Hc. reflexivity.
  - rewrite IH. destruct p; reflexivity.
Qed.

Lemma contains_suffix (c : ascii) (p : string) :
  PyStr.contains (String c "") (p ++ String c "")%string = true.
Proof.
  induction p as [| x p IH].
  - simpl. destruct (ascii_dec c c); [reflexivity | contradiction].
  - change ((String x p ++ String c "")%string)
      with (String x (p ++ String c "")%string).
    cbn [PyStr.contains]. rewrite IH. apply orb_true_r.
Qed.

Lemma contains_lacks (c : ascii) (p : string) :
  lacks c p = true -> PyStr.contains (String c "") p = false.
Proof.
  unfold lacks. induction p as [| x p IH]; intros H; [reflexivity |].
  simpl in H. apply andb_prop in H. destruct H as [Hx Hp].
  apply negb_true_iff in Hx.
  cbn [PyStr.contains]. rewrite (prefix_head_neq c x "" p Hx).
  simpl. apply IH. exact Hp.
Qed.

Lemma lacks_of_number (c : ascii) (p : string) :
  number_char c = false ->
  PyStr.forallb number_char p = true -> lacks c p = true.
Proof.
  intros Hc. unfold lacks. apply forallb_impl.
  intros x Hx. apply negb_true_iff.
  destruct (Ascii.eqb x c) eqn:E; [| reflexivity].
  apply Ascii.eqb_eq in E. subst x. congruence.
Qed.

(** ** The normaliser *)

Lemma convert_views_to_number_unfold (views_text : string) :
  convert_views_to_number views_text = normalizer_spec views_text.
Proof.
  unfold convert_views_to_number, convert_views_to_number_exc, try_except,
    convert_views_try, normalizer_spec, unit_stripped, scaled, plain_integer.
  cbv zeta. unfold bind.
  repeat match goal with
         | |- context [if ?b then _ else _] => destruct b
         end;
    try (destruct (int_of_str _); reflexivity);
    (destruct (float_of_str _) as [e | x]; [reflexivity |]);
    destruct (int_of_float _); reflexivity.
Qed.

Lemma number_char_not_space (c : ascii) :
  number_char c = true -> PyStr.isspace c = false.
Proof.
  destruct c as [[] [] [] [] [] [] [] []]; vm_compute; congruence.
Qed.

(** A number followed by a suffix letter and the unit word: what is left
    after the unit word and white space are stripped. *)
Lemma unit_stripped_suffix (c : ascii) (number : string) :
  number_char c = false ->
  PyStr.isspace c = false ->
  PyStr.forallb number_char number = true ->
  unit_stripped (number ++ String c " views")%string
  = (number ++ String c "")%string.
Proof.
  intros Hc Hsp Hnum.
  assert (Hblank : lacks " " number = true)
    by (apply lacks_of_number; [reflexivity | exact Hnum]).
  assert (Hcb : Ascii.eqb c " " = false).
  { destruct (Ascii.eqb c " ") eqn:E; [| reflexivity].
    apply Ascii.eqb_eq in E. subst c. discriminate Hsp. }
  assert (H1 : PyStr.replace (number ++ String c " views")%string " views" ""
               = (number ++ String c "")%string).
  { unfold PyStr.replace.
    rewrite (replace_from_lacks " " "views" "" number _ Hblank).
    cbn [PyStr.replace_from].
    rewrite (prefix_head_neq " " c "views" _ Hcb).
    reflexivity. }
  assert (Hblank' : lacks " " (number ++ String c "")%string = true).
  { unfold lacks. rewrite forallb_app. fold (lacks " " number).
    rewrite Hblank. simpl. rewrite Hcb. reflexivity. }
  unfold unit_stripped. rewrite H1.
  rewrite (replace_lacks " " "view" "" _ Hblank').
  unfold PyStr.strip.
  assert (Hl : PyStr.lstrip_by PyStr.isspace (number ++ String c "")%string
               = (number ++ String c "")%string).
  { destruct number as [| x number]; simpl.
    - rewrite Hsp. reflexivity.
    - simpl in Hnum. apply andb_prop in Hnum. destruct Hnum as [Hx _].
      rewrite (number_char_not_space x Hx). reflexivity. }
  rewrite Hl. apply rstrip_by_last. exact Hsp.
Qed.

Lemma replace_suffix_letter (c : ascii) (number : string) :
  number_char c = false ->
  PyStr.forallb number_char number = true ->
  PyStr.replace (number ++ String c "")%string (String c "") "" = number.
Proof.
  intros Hc Hnum. unfold PyStr.replace.
  rewrite (replace_from_lacks c "" "" number _ (lacks_of_number c number Hc Hnum)).
  cbn [PyStr.replace_from].
  assert (Hp : String.prefix (String c "") (String c "") = true).
  { simpl. destruct (ascii_dec c c); [reflexivity | contradiction]. }
  rewrite Hp. simpl. apply append_empty_r.
Qed.

Lemma contains_other_letter (c d : ascii) (number : string) :
  number_char c = false ->
  Ascii.eqb d c = false ->
  PyStr.forallb number_char number = true ->
  PyStr.contains (String c "") (number ++ String d "")%string = false.
Proof.
  intros Hc Hd Hnum. apply contains_lacks.
  unfold lacks. rewrite forallb_app.
  fold (lacks c number). rewrite (lacks_of_number c number Hc Hnum).
  simpl. rewrite Hd. reflexivity.
Qed.

(** [int] of a finite float keeps the sign and takes the integer part of
    the magnitude [m * 2^e]: nothing is rounded up. *)
Lemma int_of_float_truncates (s : bool) (m : positive) (e : Z) :
  exists a,
    int_of_float (S754_finite s m e) = inr (if s then - a else a)
    /\ 0 <= a
    /\ a * 2 ^ Z.max 0 (- e) <= Z.pos m * 2 ^ Z.max 0 e
       < (a + 1) * 2 ^ Z.max 0 (- e).
Proof.
  unfold int_of_float. destruct (0 <=? e) eqn:He.
  - apply Z.leb_le in He.
    exists (Z.pos m * 2 ^ e). split; [reflexivity |].
    assert (0 < 2 ^ e) by (apply Z.pow_pos_nonneg; lia).
    rewrite (Z.max_l 0 (- e)), (Z.max_r 0 e) by lia.
    change (2 ^ 0) with 1. nia.
  - apply Z.leb_gt in He.
    exists (Z.pos m / 2 ^ (- e)). split; [reflexivity |].
    assert (Hd : 0 < 2 ^ (- e)) by (apply Z.pow_pos_nonneg; lia).
    rewrite (Z.max_r 0 (- e)), (Z.max_l 0 e) by lia.
    change (2 ^ 0) with 1. rewrite Z.mul_1_r.
    split; [apply Z.div_pos; lia |].
    pose proof (Z.mul_div_le (Z.pos m) (2 ^ (- e)) Hd).
    pose proof (Z.mul_succ_div_gt (Z.pos m) (2 ^ (- e)) Hd).
    split; lia.
Qed.

(** C3: the normaliser strips the unit word and white space, then looks
    for K, then M, then B; with such a letter the rest is read as a
    float, multiplied by 1,000, 1,000,000 or 1,000,000,000 and
    truncated, and without one the text without commas is read as an
    integer.  For a number followed by the letter and the unit word the
    float is that of the number before the letter.  The letters are
    matched in upper case only; the integer taken from a float is the
    integer part of its magnitude with its sign, so 1999.9 becomes
    1999. *)
Theorem convert_views_to_number_cases :
  (forall views_text,
      convert_views_to_number views_text = normalizer_spec views_text)
  /\ (forall number,
         PyStr.forallb number_char number = true ->
         convert_views_to_number (number ++ "K views")%string = scaled number 1000
         /\ convert_views_to_number (number ++ "M views")%string
            = scaled number 1000000
         /\ convert_views_to_number (number ++ "B views")%string
            = scaled number 1000000000)
  /\ convert_views_to_number "8.8K views" = 8800
  /\ convert_views_to_number "1.2M views" = 1200000
  /\ convert_views_to_number "2.5B views" = 2500000000
  /\ convert_views_to_number "523 views" = 523
  /\ convert_views_to_number "12,345 views" = 12345
  /\ convert_views_to_number "1.9999K views" = 1999
  /\ convert_views_to_number "8.8k views" = 0
  /\ (forall s m e,
         exists a,
           int_of_float (S754_finite s m e) = inr (if s then - a else a)
           /\ 0 <= a
           /\ a * 2 ^ Z.max 0 (- e) <= Z.pos m * 2 ^ Z.max 0 e
              < (a + 1) * 2 ^ Z.max 0 (- e)).
Proof.
  split; [exact convert_views_to_number_unfold |].
  split.
  - intros number Hnum.
    rewrite !convert_views_to_number_unfold. unfold normalizer_spec.
    rewrite !unit_stripped_suffix by (reflexivity || exact Hnum).
    cbv zeta.
    rewrite (contains_suffix "K"), (contains_suffix "M"), (contains_suffix "B").
    rewrite !replace_suffix_letter by (reflexivity || exact Hnum).
    rewrite (contains_other_letter "K" "M"), (contains_other_letter "K" "B"),
      (contains_other_letter "M" "B") by (reflexivity || exact Hnum).
    repeat split; reflexivity.
  - repeat (split; [vm_compute; reflexivity |]).
    exact int_of_float_truncates.
Qed.

Lemma convert_views_to_number_cases_witness :
  PyStr.forallb number_char "8.8" = true
  /\ convert_views_to_number ("8.8" ++ "K views")%string = scaled "8.8" 1000
  /\ scaled "8.8" 1000 = 8800.
Proof.
  split; [reflexivity |]. split.
  - apply (proj1 (proj2 convert_views_to_number_cases) "8.8"%string).
    reflexivity.
  - vm_compute. reflexivity.
Defined.

(** C4: the normaliser returns an integer for every text and raises
    nothing; whenever a step fails to read the text the result is 0. *)
Theorem convert_views_to_number_total :
  (forall views_text,
      exists n,
        convert_views_to_number_exc views_text = inr n
        /\ convert_views_to_number views_text = n)
  /\ (forall views_text e,
         convert_views_try views_text = inl e ->
         convert_views_to_number views_text = 0)
  /\ convert_views_to_number "N/A" = 0
  /\ convert_views_to_number "" = 0
  /\ convert_views_to_number "abc views" = 0.
Proof.
  split; [| split].
  - intros views_text.
    unfold convert_views_to_number, convert_views_to_number_exc, try_except.
    destruct (convert_views_try views_text) as [e | n].
    + exists 0. split; reflexivity.
    + exists n. split; reflexivity.
  - intros views_text e H.
    unfold convert_views_to_number, convert_views_to_number_exc, try_except.
    rewrite H. reflexivity.
  - repeat split; vm_compute; reflexivity.
Qed.

Lemma convert_views_to_number_total_witness :
  convert_views_try "N/A" = inl ValueError
  /\ convert_views_to_number "N/A" = 0.
Proof.
  split; [vm_compute; reflexivity |].
  apply (proj1 (proj2 convert_views_to_number_total) "N/A"%string ValueError).
  vm_compute. reflexivity.
Defined.

(** ** The sign of the normaliser's result *)

Lemma lacks_of_not_contains (c : ascii) (s : string) :
  PyStr.contains (String c "") s = false -> lacks c s = true.
Proof.
  unfold lacks. induction s as [| x s IH]; intros H; [reflexivity |].
  cbn [PyStr.contains] in H. apply orb_false_elim in H. destruct H as [Hp Hs].
  simpl. rewrite (IH Hs), andb_true_r. apply negb_true_iff.
  destruct (Ascii.eqb x c) eqn:E; [| reflexivity].
  apply Ascii.eqb_eq in E. subst x. simpl in Hp.
  destruct (ascii_dec c c); [destruct s; discriminate Hp | contradiction].
Qed.

Lemma forallb_replace_from (p : ascii -> bool) (old : string) (s : string) :
  PyStr.forallb p s = true ->
  forall skip, PyStr.forallb p (PyStr.replace_from old "" skip s) = true.
Proof.
  induction s as [| c s IH]; intros H skip; [reflexivity |].
  simpl in H. apply andb_prop in H. destruct H as [Hc Hs].
  cbn [PyStr.replace_from]. destruct skip as [| k].
  - destruct (String.prefix old (String c s)).
    + simpl. apply IH. exact Hs.
    + simpl. rewrite Hc. apply IH. exact Hs.
  - apply IH. exact Hs.
Qed.

Lemma forallb_replace (p : ascii -> bool) (s old : string) :
  PyStr.forallb p s = true -> PyStr.forallb p (PyStr.replace s old "") = true.
Proof. intros H. apply forallb_replace_from. exact H. Qed.

Lemma forallb_lstrip_by (p sp : ascii -> bool) (s : string) :
  PyStr.forallb p s = true -> PyStr.forallb p (PyStr.lstrip_by sp s) = true.
Proof.
  induction s as [| c s IH]; intros H; [reflexivity |].
  simpl. destruct (sp c); [| exact H].
  simpl in H. apply andb_prop in H. apply IH. apply H.
Qed.

Lemma forallb_rstrip_by (p sp : ascii -> bool) (s : string) :
  PyStr.forallb p s = true -> PyStr.forallb p (PyStr.rstrip_by sp s) = true.
Proof.
  induction s as [| c s IH]; intros H; [reflexivity |].
  simpl in H. apply andb_prop in H. destruct H as [Hc Hs].
  specialize (IH Hs). simpl.
  destruct (PyStr.rstrip_by sp s) as [| x r].
  - destruct (sp c); simpl; [reflexivity | rewrite Hc; reflexivity].
  - cbn [PyStr.forallb]. rewrite Hc. exact IH.
Qed.

Lemma forallb_strip (p : ascii -> bool) (s : string) :
  PyStr.forallb p s = true -> PyStr.forallb p (PyStr.strip s) = true.
Proof.
  intros H. unfold PyStr.strip.
  apply forallb_rstrip_by, forallb_lstrip_by. exact H.
Qed.

Lemma forallb_remove_underscores (p : ascii -> bool) (s : string) :
  PyStr.forallb p s = true ->
  forall prev t,
    remove_underscores prev s = Some t -> PyStr.forallb p t = true.
Proof.
  induction s as [| c s IH]; intros H prev t Hr.
  - simpl in Hr. destruct prev as [x |].
    + destruct (is_underscore x); inversion Hr; reflexivity.
    + inversion Hr; reflexivity.
  - simpl in H. apply andb_prop in H. destruct H as [Hc Hs].
    cbn [remove_underscores] in Hr.
    destruct (is_underscore c).
    + destruct prev as [x |]; [| discriminate].
      destruct (PyStr.isdigit x); [| discriminate].
      eapply IH; eassumption.
    + match type of Hr with
      | (if ?b then _ else _) = _ => destruct b; [discriminate |]
      end.
      destruct (remove_underscores (Some c) s) as [r |] eqn:Hrec;
        [| discriminate].
      inversion Hr; subst t. simpl. rewrite Hc.
      eapply IH; eassumption.
Qed.

Lemma take_sign_lacks (s : string) :
  lacks "-" s = true ->
  fst (take_sign s) = false
  /\ lacks "-" (snd (take_sign s)) = true.
Proof.
  destruct s as [| c s]; intros H; [split; reflexivity |].
  unfold lacks in H. simpl in H. apply andb_prop in H. destruct H as [Hc Hs].
  destruct c as [[] [] [] [] [] [] [] []];
    try discriminate Hc; simpl; split;
    try reflexivity; try exact Hs;
    unfold lacks; simpl; exact Hs.
Qed.

Lemma binary_round_aux_sign_clear (mx ex : Z) (lx : location) :
  sign_clear (binary_round_aux prec emax false mx ex lx) = true.
Proof.
  unfold binary_round_aux.
  destruct (shr_fexp prec emax mx ex lx) as [mrs e].
  destruct (shr_fexp prec emax _ e loc_Exact) as [mrs' e'].
  destruct (shr_m mrs') as [| m | m]; try reflexivity.
  destruct (e' <=? emax - prec); reflexivity.
Qed.

Lemma round_ratio_sign_clear (p q : Z) :
  sign_clear (round_ratio false p q) = true.
Proof.
  unfold round_ratio.
  destruct p as [| p | p]; try reflexivity;
    destruct (SFdiv_core_binary prec emax _ 0 q 0) as [[mz ez] lz];
    apply binary_round_aux_sign_clear.
Qed.

Lemma float_of_str_sign_clear (s : string) (x : float) :
  lacks "-" s = true -> float_of_str s = inr x -> sign_clear x = true.
Proof.
  intros Hs. unfold float_of_str.
  destruct (remove_underscores None (strip_numspace s)) as [t |] eqn:Ht;
    [| discriminate].
  assert (Hlt : lacks "-" t = true).
  { unfold lacks.
    eapply forallb_remove_underscores; [| exact Ht].
    unfold strip_numspace.
    apply forallb_rstrip_by, forallb_lstrip_by. exact Hs. }
  destruct (take_sign_lacks t Hlt) as [Hneg _].
  destruct (take_sign t) as [neg body]. simpl in Hneg. subst neg.
  destruct (_ || _)%bool; [intros H; inversion H; reflexivity |].
  destruct (String.eqb _ "nan"); [intros H; inversion H; reflexivity |].
  unfold parse_decimal.
  destruct (PyStr.span PyStr.isdigit body) as [ip r1].
  destruct (match r1 with
            | String "." r => PyStr.span PyStr.isdigit r
            | _ => (EmptyString, r1)
            end) as [fp r2].
  destruct (ip ++ fp)%string as [| d ds]; [discriminate |].
  destruct (parse_exponent r2) as [e |]; [| discriminate].
  intros H. inversion H; subst x.
  unfold float_of_decimal.
  destruct (0 <=? _); apply round_ratio_sign_clear.
Qed.

Lemma SFmul_sign_clear (x : float) (m : positive) (e : Z) :
  sign_clear x = true ->
  sign_clear (SFmul prec emax x (S754_finite false m e)) = true.
Proof.
  destruct x as [s | s | | s mx ex]; simpl; intros H;
    try reflexivity;
    apply negb_true_iff in H; subst s; simpl; try reflexivity.
  apply binary_round_aux_sign_clear.
Qed.

Lemma int_of_float_nonneg (x : float) (n : Z) :
  sign_clear x = true -> int_of_float x = inr n -> 0 <= n.
Proof.
  destruct x as [s | s | | s m e]; unfold int_of_float, sign_clear;
    intros Hs H; try discriminate H.
  - inversion H. lia.
  - apply negb_true_iff in Hs. subst s.
    assert (Ha : 0 <= (if 0 <=? e then Z.pos m * 2 ^ e else Z.pos m / 2 ^ (- e))).
    { destruct (0 <=? e) eqn:He.
      - apply Z.leb_le in He.
        apply Z.mul_nonneg_nonneg; [lia | apply Z.pow_nonneg; lia].
      - apply Z.leb_gt in He.
        apply Z.div_pos; [lia | apply Z.pow_pos_nonneg; lia]. }
    unfold ret in H. injection H as <-. exact Ha.
Qed.

Lemma digits_value_nonneg (s : string) :
  PyStr.forallb PyStr.isdigit s = true ->
  forall acc, 0 <= acc -> 0 <= digits_value acc s.
Proof.
  induction s as [| c s IH]; intros H acc Hacc; cbn [digits_value];
    [exact Hacc |].
  cbn [PyStr.forallb] in H. apply andb_prop in H. destruct H as [Hc Hs].
  apply IH; [exact Hs |].
  unfold PyStr.isdigit, PyStr.between in Hc.
  apply andb_prop in Hc. destruct Hc as [Hlo _].
  apply Nat.leb_le in Hlo. unfold digit_value. lia.
Qed.

Lemma int_of_str_nonneg (s : string) (n : Z) :
  lacks "-" s = true -> int_of_str s = inr n -> 0 <= n.
Proof.
  intros Hs. unfold int_of_str.
  assert (Hl : lacks "-" (PyStr.lstrip_by numspace s) = true)
    by (apply forallb_lstrip_by; exact Hs).
  destruct (take_sign_lacks _ Hl) as [Hneg _].
  destruct (take_sign (PyStr.lstrip_by numspace s)) as [neg body].
  simpl in Hneg. subst neg.
  destruct (remove_underscores None (PyStr.rstrip_by numspace body)) as [ds |];
    [| discriminate].
  destruct ds as [| d ds]; [discriminate |].
  destruct (PyStr.forallb PyStr.isdigit (String d ds)) eqn:Hd; [| discriminate].
  simpl negb. cbv iota.
  destruct (Nat.ltb _ _); [discriminate |].
  pose proof (digits_value_nonneg (String d ds) Hd 0 (Z.le_refl 0)) as Hnn.
  intros H. unfold ret in H. injection H as <-. exact Hnn.
Qed.

Lemma scaled_nonneg (number : string) (factor : Z) (m : positive) (e : Z) :
  float_of_int factor = S754_finite false m e ->
  lacks "-" number = true ->
  0 <= scaled number factor.
Proof.
  intros Hf Hs. unfold scaled.
  destruct (float_of_str number) as [err | x] eqn:Hx; [lia |].
  destruct (int_of_float (mul_int x factor)) as [err | n] eqn:Hn; [lia |].
  apply (int_of_float_nonneg (mul_int x factor)); [| exact Hn].
  unfold mul_int. rewrite Hf. apply SFmul_sign_clear.
  eapply float_of_str_sign_clear; eassumption.
Qed.

Lemma normalizer_spec_nonneg (views_text : string) :
  lacks "-" views_text = true -> 0 <= normalizer_spec views_text.
Proof.
  intros H. unfold normalizer_spec.
  assert (Ht : lacks "-" (unit_stripped views_text) = true).
  { unfold unit_stripped, lacks.
    apply forallb_strip, forallb_replace, forallb_replace. exact H. }
  cbv zeta.
  destruct (PyStr.contains "K" _).
  { eapply scaled_nonneg; [vm_compute; reflexivity |].
    apply forallb_replace. exact Ht. }
  destruct (PyStr.contains "M" _).
  { eapply scaled_nonneg; [vm_compute; reflexivity |].
    apply forallb_replace. exact Ht. }
  destruct (PyStr.contains "B" _).
  { eapply scaled_nonneg; [vm_compute; reflexivity |].
    apply forallb_replace. exact Ht. }
  unfold plain_integer.
  destruct (int_of_str _) as [err | n] eqn:Hn; [lia |].
  eapply int_of_str_nonneg; [| exact Hn].
  apply forallb_replace. exact Ht.
Qed.

Lemma metadata_loop_views {bs : Soup} (element : tag) (sels : list string) :
  forall views posted v p,
    metadata_loop element sels views posted = inr (v, p) ->
    v = views
    \/ exists span text,
         get_text span = inr text /\ v = convert_views_to_number text.
Proof.
  induction sels as [| selector rest IH]; intros views posted v p H.
  - inversion H. left. reflexivity.
  - cbn [metadata_loop] in H. split_bind H.
    destruct a as [| s0 [| s1 more]].
    + apply IH in H. exact H.
    + split_bind H. apply IH in H.
      destruct H as [-> | H]; [| right; exact H].
      right. exists s0, a. split; [assumption | reflexivity].
    + split_bind H. split_bind H. inversion H; subst.
      right. exists s0, a. split; [assumption | reflexivity].
Qed.

(** With a minus sign in the view text the normaliser returns a
    negative number, and the record carries it. *)
Lemma view_count_negative_counterexample :
  convert_views_to_number "-5 views" = -5
  /\ ~ 0 <= convert_views_to_number "-5 views"
  /\ @parse_html Samples.bs4 Samples.clock Samples.negative_html
     = (true,
        Some [mk_video "N" "https://www.youtube.com/watch?v=2" (-5) "now"
                (Samples.clock 0)],
        None).
Proof.
  split; [vm_compute; reflexivity |].
  split; [vm_compute; intros H; apply H; reflexivity |].
  vm_compute. reflexivity.
Qed.

(** C7, as amended: the view count of a record is an integer, 0 by
    default or when the text cannot be read, and otherwise what the
    normaliser returns for the text of a metadata span; the normaliser's
    result is not negative for any text without a minus sign. *)
Theorem view_count_nonneg_without_minus :
  (forall views_text,
      PyStr.contains "-" views_text = false ->
      0 <= convert_views_to_number views_text)
  /\ (forall views_text e,
         convert_views_try views_text = inl e ->
         convert_views_to_number views_text = 0)
  /\ (forall (bs : Soup) (now : nat -> string) html b vs m,
         parse_html now html = (b, Some vs, m) ->
         Forall (fun v =>
                   Views v = 0
                   \/ exists span text,
                        get_text span = inr text
                        /\ Views v = convert_views_to_number text) vs).
Proof.
  split; [| split].
  - intros views_text H.
    rewrite convert_views_to_number_unfold.
    apply normalizer_spec_nonneg, lacks_of_not_contains. exact H.
  - intros views_text e H.
    unfold convert_views_to_number, convert_views_to_number_exc, try_except.
    rewrite H. reflexivity.
  - intros bs now html b vs m H.
    apply parse_html_table in H. apply parse_html_try_table in H.
    destruct H as [soup [elements [_ [_ [-> _]]]]].
    unfold parse_elements.
    apply fold_parse_element_invariant; [| constructor].
    intros videos element v Hadd.
    apply parse_element_added in Hadd.
    destruct Hadd as [t [u [n [p [Hx [_ [_ ->]]]]]]]. simpl.
    apply extract_inr in Hx. destruct Hx as [_ [_ Hm]].
    apply metadata_loop_views in Hm. exact Hm.
Qed.

Lemma view_count_nonneg_without_minus_witness :
  PyStr.contains "-" "12,345 views" = false
  /\ 0 <= convert_views_to_number "12,345 views"
  /\ convert_views_try "abc views" = inl ValueError
  /\ convert_views_to_number "abc views" = 0
  /\ Forall (fun v =>
               Views v = 0
               \/ exists span text,
                    @get_text Samples.bs4 span = inr text
                    /\ Views v = convert_views_to_number text)
       Samples.listing_records.
Proof.
  split; [reflexivity |]. split.
  - apply (proj1 view_count_nonneg_without_minus "12,345 views"%string).
    reflexivity.
  - split; [vm_compute; reflexivity |]. split.
    + apply (proj1 (proj2 view_count_nonneg_without_minus)
               "abc views"%string ValueError).
      vm_compute. reflexivity.
    + apply (proj2 (proj2 view_count_nonneg_without_minus)
               Samples.bs4 Samples.clock Samples.listing_html
               true Samples.listing_records None).
      vm_compute. reflexivity.
Defined.

(** The end-to-end scenario: of three entries, the one without a title
    is dropped; the relative link gets the origin, and "1.1K views"
    becomes 1100. *)
Example listing_page_end_to_end :
  @parse_html Samples.bs4 Samples.clock Samples.listing_html
  = (true, Some Samples.listing_records, None)
  /\ List.length Samples.listing_records = 2%nat
  /\ map URL Samples.listing_records
     = ["https://youtu.be/x1"; "https://www.youtube.com/watch?v=abc"]%string
  /\ map Views Samples.listing_records = [1100; 523].
Proof. repeat split; vm_compute; reflexivity. Qed.

(** A page without containers fails with the "no video elements"
    message. *)
Example plain_page_fails :
  @parse_html Samples.bs4 Samples.clock Samples.plain_html
  = (false, None, Some no_elements_msg).
Proof. vm_compute. reflexivity. Qed.

(** The same page under two clocks: same records, other times. *)
Example listing_page_two_clocks :
  outcome_content (@parse_html Samples.bs4 Samples.clock Samples.listing_html)
  = outcome_content (@parse_html Samples.bs4 Samples.later Samples.listing_html)
  /\ @parse_html Samples.bs4 Samples.clock Samples.listing_html
     <> @parse_html Samples.bs4 Samples.later Samples.listing_html.
Proof. split; vm_compute; [reflexivity | discriminate]. Qed.

(** * Around the pipeline: the fetch, the address, the log, the session *)

(** ** More string lemmas *)

Lemma append_assoc_str (a b c : string) :
  ((a ++ b) ++ c)%string = (a ++ (b ++ c))%string.
Proof. induction a as [| x a IH]; simpl; [| rewrite IH]; reflexivity. Qed.

Lemma length_append_str (a b : string) :
  String.length (a ++ b)%string = (String.length a + String.length b)%nat.
Proof. induction a as [| x a IH]; simpl; [| rewrite IH]; reflexivity. Qed.

Lemma prefix_refl (s : string) : String.prefix s s = true.
Proof.
  induction s as [| c s IH]; simpl; [reflexivity |].
  destruct (ascii_dec c c); [exact IH | contradiction].
Qed.

Lemma prefix_append (s t : string) : String.prefix s (s ++ t)%string = true.
Proof.
  induction s as [| c s IH]; simpl; [destruct t; reflexivity |].
  destruct (ascii_dec c c); [exact IH | contradiction].
Qed.

Lemma contains_append_r (sub s t : string) :
  PyStr.contains sub t = true -> PyStr.contains sub (s ++ t)%string = true.
Proof.
  intros H. induction s as [| c s IH]; [exact H |].
  change ((String c s ++ t)%string) with (String c (s ++ t)%string).
  cbn [PyStr.contains]. rewrite IH. apply orb_true_r.
Qed.

Lemma contains_prefix (sub s : string) :
  String.prefix sub s = true -> PyStr.contains sub s = true.
Proof. intros H. destruct s; simpl in *; rewrite H; reflexivity. Qed.

Lemma endswith_split (s suffix : string) :
  PyExt.endswith s suffix = true -> exists p, s = (p ++ suffix)%string.
Proof.
  induction s as [| c s IH]; cbn [PyExt.endswith]; intros H.
  - rewrite orb_false_r in H. apply String.eqb_eq in H. subst suffix.
    exists ""%string. reflexivity.
  - apply orb_prop in H. destruct H as [H | H].
    + apply String.eqb_eq in H. exists ""%string. exact H.
    + destruct (IH H) as [p ->]. exists (String c p). reflexivity.
Qed.

Lemma endswith_append (p suffix : string) :
  PyExt.endswith (p ++ suffix)%string suffix = true.
Proof.
  induction p as [| c p IH].
  - simpl. destruct suffix; cbn [PyExt.endswith]; rewrite String.eqb_refl;
      reflexivity.
  - change ((String c p ++ suffix)%string) with (String c (p ++ suffix)%string).
    cbn [PyExt.endswith]. rewrite IH. apply orb_true_r.
Qed.

Lemma take_drop (k : nat) (s : string) :
  s = (PyExt.take k s ++ PyExt.drop k s)%string.
Proof.
  revert s. induction k as [| k IH]; intros s; destruct s as [| c s];
    simpl; try reflexivity.
  rewrite <- IH. reflexivity.
Qed.

Lemma length_drop (k : nat) (s : string) :
  String.length (PyExt.drop k s) = (String.length s - k)%nat.
Proof.
  revert s. induction k as [| k IH]; intros s; destruct s as [| c s];
    simpl; try reflexivity.
  apply IH.
Qed.


(** ** The channel address *)

Lemma ensure_videos_contains (channel_url : string) :
  PyStr.contains "/videos" (ensure_videos channel_url) = true.
Proof.
  unfold ensure_videos.
  destruct (PyStr.contains "/videos" channel_url) eqn:Hu; simpl; [exact Hu |].
  destruct (PyExt.endswith channel_url "/") eqn:He.
  - apply endswith_split in He. destruct He as [p ->].
    rewrite append_assoc_str. apply contains_append_r. reflexivity.
  - apply contains_append_r. reflexivity.
Qed.

(** The address handed to the fetch always contains [/videos]; an
    address that has it is left alone, so the step is idempotent; any
    other address is kept as a prefix and made to end in [/videos]. *)
Theorem ensure_videos_points_to_videos :
  forall channel_url,
    PyStr.contains "/videos" (ensure_videos channel_url) = true
    /\ ensure_videos (ensure_videos channel_url) = ensure_videos channel_url
    /\ String.prefix channel_url (ensure_videos channel_url) = true
    /\ (PyStr.contains "/videos" channel_url = true ->
        ensure_videos channel_url = channel_url)
    /\ (PyStr.contains "/videos" channel_url = false ->
        PyExt.endswith (ensure_videos channel_url) "/videos" = true).
Proof.
  intros u.
  pose proof (ensure_videos_contains u) as Hc.
  split; [exact Hc |]. split.
  { unfold ensure_videos at 1. rewrite Hc. reflexivity. }
  split.
  { unfold ensure_videos.
    destruct (PyStr.contains "/videos" u); simpl; [apply prefix_refl |].
    destruct (PyExt.endswith u "/"); apply prefix_append. }
  split.
  - intros Hu. unfold ensure_videos. rewrite Hu. reflexivity.
  - intros Hu. unfold ensure_videos. rewrite Hu. simpl.
    destruct (PyExt.endswith u "/") eqn:He.
    + apply endswith_split in He. destruct He as [p ->].
      rewrite append_assoc_str. apply (endswith_append p "/videos").
    + apply (endswith_append u "/videos").
Qed.

Lemma ensure_videos_points_to_videos_witness :
  PyStr.contains "/videos" "https://www.youtube.com/@lab/" = false
  /\ PyExt.endswith (ensure_videos "https://www.youtube.com/@lab/") "/videos" = true
  /\ PyStr.contains "/videos" "https://www.youtube.com/@lab/videos" = true
  /\ ensure_videos "https://www.youtube.com/@lab/videos"
     = "https://www.youtube.com/@lab/videos"%string.
Proof.
  split; [reflexivity |]. split.
  - apply (proj2 (proj2 (proj2 (proj2
             (ensure_videos_points_to_videos "https://www.youtube.com/@lab/"))))).
    reflexivity.
  - split; [reflexivity |].
    apply (proj1 (proj2 (proj2 (proj2
             (ensure_videos_points_to_videos
                "https://www.youtube.com/@lab/videos"))))).
    reflexivity.
Defined.

(** ** The displayed part of the key *)

(** The key is shown by its last eight characters: what is shown is a
    suffix of the key of at most eight characters, and a key of at most
    eight characters is shown whole. *)
Theorem key_tail_suffix :
  forall api_key,
    (exists hidden, api_key = (hidden ++ key_tail api_key)%string)
    /\ String.length (key_tail api_key) = Nat.min 8 (String.length api_key)
    /\ ((String.length api_key <= 8)%nat -> key_tail api_key = api_key).
Proof.
  intros k. unfold key_tail, PyExt.last_chars.
  split; [| split].
  - exists (PyExt.take (String.length k - 8) k). apply take_drop.
  - rewrite length_drop. lia.
  - intros H. replace (String.length k - 8)%nat with 0%nat by lia.
    destruct k; reflexivity.
Qed.

Lemma key_tail_suffix_witness :
  (String.length "abc123" <= 8)%nat /\ key_tail "abc123" = "abc123"%string.
Proof.
  split; [simpl; lia |].
  apply (proj2 (proj2 (key_tail_suffix "abc123"%string))). simpl. lia.
Defined.

(** ** The fetch *)

Lemma call_zenrows_except_fails (e : exception) :
  exists msg, call_zenrows_except e = (false, None, Some msg).
Proof.
  unfold call_zenrows_except.
  destruct (is_timeout e); [eexists; reflexivity |].
  destruct (is_connection_error e); [eexists; reflexivity |].
  destruct (is_request_exception e); eexists; reflexivity.
Qed.

Lemma call_zenrows_cases :
  forall requests_get url api_key js_render wait_time,
    (exists body,
        requests_get zenrows_url
          (zenrows_params url api_key js_render wait_time) 60
        = inr (mk_response 200 body)
        /\ call_zenrows requests_get url api_key js_render wait_time
           = (true, Some body, None))
    \/ ((forall body,
            requests_get zenrows_url
              (zenrows_params url api_key js_render wait_time) 60
            <> inr (mk_response 200 body))
        /\ exists msg,
             call_zenrows requests_get url api_key js_render wait_time
             = (false, None, Some msg)).
Proof.
  intros requests_get url api_key js_render wait_time.
  unfold call_zenrows, call_zenrows_try, bind.
  destruct (requests_get zenrows_url
              (zenrows_params url api_key js_render wait_time) 60)
    as [e | [status body]] eqn:Hget.
  - right. split; [intros body H; discriminate H |].
    apply call_zenrows_except_fails.
  - cbn [status_code text].
    destruct (status =? 200) eqn:E200.
    + left. apply Z.eqb_eq in E200. subst status.
      exists body. split; reflexivity.
    + right. split.
      * intros body' H. inversion H; subst. discriminate E200.
      * destruct (status =? 401); [eexists; reflexivity |].
        destruct (status =? 403); [eexists; reflexivity |].
        destruct (status =? 400); [eexists; reflexivity |].
        destruct (status =? 500); eexists; reflexivity.
Qed.


(** [call_zenrows] succeeds exactly when the request returns with
    status 200, and then hands over the body unchanged and no message;
    in every other case, an exception of the request included, it
    returns a failure with a message and no text. *)
Theorem call_zenrows_success_iff_200 :
  forall requests_get url api_key js_render wait_time,
    (exists body,
        requests_get zenrows_url
          (zenrows_params url api_key js_render wait_time) 60
        = inr (mk_response 200 body)
        /\ call_zenrows requests_get url api_key js_render wait_time
           = (true, Some body, None))
    \/ ((forall body,
            requests_get zenrows_url
              (zenrows_params url api_key js_render wait_time) 60
            <> inr (mk_response 200 body))
        /\ exists msg,
             call_zenrows requests_get url api_key js_render wait_time
             = (false, None, Some msg)).
Proof.
  intros requests_get url api_key js_render wait_time.
  unfold call_zenrows, call_zenrows_try, bind.
  destruct (requests_get zenrows_url
              (zenrows_params url api_key js_render wait_time) 60)
    as [e | [status body]] eqn:Hget.
  - right. split; [intros body H; discriminate H |].
    apply call_zenrows_except_fails.
  - cbn [status_code text].
    destruct (status =? 200) eqn:E200.
    + left. apply Z.eqb_eq in E200. subst status.
      exists body. split; reflexivity.
    + right. split.
      * intros body' H. inversion H; subst. discriminate E200.
      * destruct (status =? 401); [eexists; reflexivity |].
        destruct (status =? 403); [eexists; reflexivity |].
        destruct (status =? 400); [eexists; reflexivity |].
        destruct (status =? 500); eexists; reflexivity.
Qed.



(** ** The log display *)

Lemma split_from_nonempty (sep : ascii) (s cur : string) :
  Dom.split_from sep cur s <> [].
Proof.
  revert cur. induction s as [| c s IH]; intros cur; simpl.
  - discriminate.
  - destruct (Ascii.eqb c sep); [discriminate | apply IH].
Qed.

Lemma concat_cons (sep x : string) (l : list string) :
  l <> [] ->
  String.concat sep (x :: l) = (x ++ sep ++ String.concat sep l)%string.
Proof. destruct l; [contradiction | reflexivity]. Qed.

(** Joining the pieces of a split gives the text back. *)
Lemma join_split_from (sep : ascii) (s cur : string) :
  String.concat (String sep "") (Dom.split_from sep cur s) = (cur ++ s)%string.
Proof.
  revert cur. induction s as [| c s IH]; intros cur; cbn [Dom.split_from].
  - simpl. symmetry. apply append_empty_r.
  - destruct (Ascii.eqb c sep) eqn:E.
    + apply Ascii.eqb_eq in E. subst c.
      rewrite concat_cons by apply split_from_nonempty.
      rewrite IH. reflexivity.
    + rewrite IH. rewrite append_assoc_str. reflexivity.
Qed.

Lemma lacks_append (c : ascii) (a b : string) :
  lacks c (a ++ b)%string = (lacks c a && lacks c b)%bool.
Proof. unfold lacks. apply forallb_app. Qed.

(** No piece of a split contains the separator. *)
Lemma split_from_lacks (sep : ascii) (s cur : string) :
  lacks sep cur = true ->
  Forall (fun piece => lacks sep piece = true) (Dom.split_from sep cur s).
Proof.
  revert cur. induction s as [| c s IH]; intros cur Hcur; cbn [Dom.split_from].
  - constructor; [exact Hcur | constructor].
  - destruct (Ascii.eqb c sep) eqn:E.
    + constructor; [exact Hcur | apply IH; reflexivity].
    + apply IH. rewrite lacks_append, Hcur. unfold lacks. simpl.
      rewrite E. reflexivity.
Qed.

Lemma count_append (c : ascii) (a b : string) :
  PyExt.count c (a ++ b)%string = (PyExt.count c a + PyExt.count c b)%nat.
Proof. induction a as [| x a IH]; simpl; [| rewrite IH]; lia. Qed.

Lemma count_lacks (c : ascii) (s : string) :
  lacks c s = true -> PyExt.count c s = 0%nat.
Proof.
  unfold lacks. induction s as [| x s IH]; simpl; intros H; [reflexivity |].
  apply andb_prop in H. destruct H as [Hx Hs].
  apply negb_true_iff in Hx. rewrite Hx, (IH Hs). reflexivity.
Qed.

(** A text of [n] pieces has [n - 1] separators. *)
Lemma count_join (sep : ascii) (l : list string) :
  Forall (fun piece => lacks sep piece = true) l ->
  l <> [] ->
  PyExt.count sep (String.concat (String sep "") l) = (List.length l - 1)%nat.
Proof.
  induction 1 as [| x l Hx Hl IH]; intros Hne; [contradiction |].
  destruct l as [| y l].
  - simpl. apply count_lacks. exact Hx.
  - rewrite concat_cons by discriminate.
    rewrite !count_append, (count_lacks _ _ Hx), IH by discriminate.
    simpl. rewrite Ascii.eqb_refl. lia.
Qed.

Lemma concat_app (sep : string) (l1 l2 : list string) :
  l1 <> [] -> l2 <> [] ->
  String.concat sep (l1 ++ l2)
  = (String.concat sep l1 ++ sep ++ String.concat sep l2)%string.
Proof.
  intros H1 H2. induction l1 as [| x l1 IH]; [contradiction |].
  destruct l1 as [| y l1].
  - simpl app. rewrite concat_cons by exact H2. reflexivity.
  - change ((x :: y :: l1) ++ l2) with (x :: ((y :: l1) ++ l2)).
    rewrite concat_cons by discriminate.
    rewrite IH by discriminate.
    rewrite (concat_cons sep x (y :: l1)) by discriminate.
    rewrite !append_assoc_str. reflexivity.
Qed.

(** Of a log that is not empty the display shows a suffix: the whole
    log when it has at most 100 lines (99 line breaks), and otherwise
    its last 100 lines; an empty log is reported as such. *)
Theorem displayed_log_last_lines :
  displayed_log "" = None
  /\ forall log_content,
       log_content <> ""%string ->
       exists shown,
         displayed_log log_content = Some shown
         /\ (exists dropped, log_content = (dropped ++ shown)%string)
         /\ (PyExt.count PyExt.newline shown <= 99)%nat
         /\ ((PyExt.count PyExt.newline log_content <= 99)%nat ->
             shown = log_content)
         /\ ((99 < PyExt.count PyExt.newline log_content)%nat ->
             PyExt.count PyExt.newline shown = 99%nat).
Proof.
  split; [reflexivity |].
  intros log Hne.
  unfold displayed_log.
  destruct log as [| c0 log0]; [contradiction |].
  cbn [truthy]. cbv zeta.
  set (log := String c0 log0) in *.
  unfold PyExt.split, Dom.split, PyExt.join.
  pose proof (join_split_from PyExt.newline log "") as Hjoin.
  pose proof (split_from_lacks PyExt.newline log "" eq_refl) as Hlacks.
  pose proof (split_from_nonempty PyExt.newline log "") as Hnonempty.
  simpl append in Hjoin.
  set (lines := Dom.split_from PyExt.newline "" log) in *.
  assert (Hcount : PyExt.count PyExt.newline log = (List.length lines - 1)%nat).
  { rewrite <- Hjoin. apply count_join; assumption. }
  assert (Hpos : (0 < List.length lines)%nat)
    by (destruct lines; [contradiction | simpl; lia]).
  destruct (Nat.ltb 100 (List.length lines)) eqn:Hlt.
  - apply Nat.ltb_lt in Hlt.
    unfold PyExt.last_items.
    set (k := (List.length lines - 100)%nat).
    assert (Hk : (List.length (skipn k lines) = 100)%nat)
      by (rewrite length_skipn; unfold k; lia).
    assert (Hs : skipn k lines <> [])
      by (intros E; rewrite E in Hk; discriminate Hk).
    assert (Hf : firstn k lines <> []).
    { intros E. apply (f_equal (@List.length string)) in E.
      rewrite length_firstn in E. simpl in E. unfold k in E. lia. }
    assert (Hshown : PyExt.count PyExt.newline
                       (String.concat (String PyExt.newline "") (skipn k lines))
                     = 99%nat).
    { rewrite count_join; [lia | | exact Hs].
      rewrite <- (firstn_skipn k lines) in Hlacks.
      apply Forall_app in Hlacks. apply Hlacks. }
    eexists. split; [reflexivity |]. split; [| split; [| split]].
    + exists (String.concat (String PyExt.newline "") (firstn k lines)
              ++ String PyExt.newline "")%string.
      rewrite <- Hjoin at 1. rewrite <- (firstn_skipn k lines) at 1.
      rewrite concat_app by assumption.
      rewrite append_assoc_str. reflexivity.
    + rewrite Hshown. lia.
    + intros Hle. lia.
    + intros _. exact Hshown.
  - apply Nat.ltb_ge in Hlt.
    exists log. split; [rewrite Hjoin; reflexivity |].
    split; [exists ""%string; reflexivity |].
    split; [lia |]. split; [reflexivity | lia].
Qed.

Lemma displayed_log_last_lines_witness :
  exists shown,
    displayed_log "one
two" = Some shown
    /\ shown = "one
two"%string.
Proof.
  destruct (proj2 displayed_log_last_lines "one
two"%string) as [shown [Hd [_ [_ [Hall _]]]]].
  - discriminate.
  - exists shown. split; [exact Hd |]. apply Hall. vm_compute. lia.
Defined.

(** ** One run of the script *)

(** After a run the session holds either the table it held before or a
    new table with at least one record; a new table is what [parse_html]
    made of the body of a 200 response to a request for an address that
    contains [/videos].  Without the button or an address, and whenever
    the fetch does not return status 200, the table is left as it was. *)
Theorem scrape_session_keeps_or_replaces :
  forall (bs : Soup) requests_get now api_key scrape_button channel_url
         js_render wait_time scraped_data,
    (scrape_session requests_get now api_key scrape_button channel_url
       js_render wait_time scraped_data = scraped_data
     \/ exists key body v vs,
          api_key = Some key
          /\ requests_get zenrows_url
               (zenrows_params (ensure_videos channel_url) key js_render wait_time)
               60
             = inr (mk_response 200 body)
          /\ PyStr.contains "/videos" (ensure_videos channel_url) = true
          /\ parse_html now body = (true, Some (v :: vs), None)
          /\ scrape_session requests_get now api_key scrape_button channel_url
               js_render wait_time scraped_data = Some (v :: vs))
    /\ (scrape_button = false \/ channel_url = ""%string ->
        scrape_session requests_get now api_key scrape_button channel_url
          js_render wait_time scraped_data = scraped_data)
    /\ (forall key,
           api_key = Some key ->
           (forall body,
               requests_get zenrows_url
                 (zenrows_params (ensure_videos channel_url) key js_render
                    wait_time) 60
               <> inr (mk_response 200 body)) ->
           scrape_session requests_get now api_key scrape_button channel_url
             js_render wait_time scraped_data = scraped_data).
Proof.
  intros bs requests_get now api_key scrape_button channel_url js_render
    wait_time scraped_data.
  split; [| split].
  - unfold scrape_session.
    destruct api_key as [key |]; [| left; reflexivity].
    destruct (negb (truthy (Some key))); [left; reflexivity |].
    destruct scrape_button; [| left; reflexivity].
    destruct (negb (truthy (Some channel_url))); [left; reflexivity |].
    cbv zeta.
    destruct (call_zenrows_cases requests_get (ensure_videos channel_url) key
                js_render wait_time)
      as [[body [Hget ->]] | [_ [msg ->]]]; [| left; reflexivity].
    cbn [negb].
    destruct (parse_html_shape now body) as [[msg H] | [v [vs H]]];
      rewrite H; [left; reflexivity |].
    right. exists key, body, v, vs.
    split; [reflexivity |]. split; [exact Hget |].
    split; [apply ensure_videos_contains |].
    split; [exact H | reflexivity].
  - intros H. unfold scrape_session.
    destruct api_key as [key |]; [| reflexivity].
    destruct (negb (truthy (Some key))); [reflexivity |].
    destruct H as [-> | ->]; [reflexivity |].
    destruct scrape_button; reflexivity.
  - intros key -> Hno. unfold scrape_session.
    destruct (negb (truthy (Some key))); [reflexivity |].
    destruct scrape_button; [| reflexivity].
    destruct (negb (truthy (Some channel_url))); [reflexivity |].
    cbv zeta.
    destruct (call_zenrows_cases requests_get (ensure_videos channel_url) key
                js_render wait_time)
      as [[body [Hget _]] | [_ [msg ->]]]; [| reflexivity].
    exfalso. exact (Hno body Hget).
Qed.

Lemma scrape_session_keeps_or_replaces_witness :
  @scrape_session Samples.bs4
    (fun _ _ _ => inr (mk_response 503 "Service unavailable"))
    Samples.clock (Some "key"%string) true "https://www.youtube.com/@lab"
    true 5000 (Some Samples.listing_records)
  = Some Samples.listing_records
  /\ @scrape_session Samples.bs4
       (fun _ _ _ => inr (mk_response 200 Samples.single_html))
       Samples.clock (Some "key"%string) true ""
       true 5000 None
     = None.
Proof.
  split.
  - apply (proj2 (proj2 (scrape_session_keeps_or_replaces Samples.bs4
                           (fun _ _ _ => inr (mk_response 503 "Service unavailable"))
                           Samples.clock (Some "key"%string) true
                           "https://www.youtube.com/@lab"%string true 5000
                           (Some Samples.listing_records)))
             "key"%string eq_refl).
    intros body H. discriminate H.
  - apply (proj1 (proj2 (scrape_session_keeps_or_replaces Samples.bs4
                           (fun _ _ _ => inr (mk_response 200 Samples.single_html))
                           Samples.clock (Some "key"%string) true
                           ""%string true 5000 None))).
    right. reflexivity.
Defined.

(** ** The table as a whole *)

Lemma parse_element_contribution {bs : Soup} (now : nat -> string)
    (videos : list video) (element : tag) :
  map content (parse_element now videos element)
  = map content videos ++ contribution element.
Proof.
  unfold parse_element, contribution.
  destruct (extract element) as [e | [[[[t |] [u |]] n] p]];
    try (rewrite app_nil_r; reflexivity).
  destruct (truthy (Some t) && truthy (Some u))%bool.
  - rewrite map_app. reflexivity.
  - rewrite app_nil_r. reflexivity.
Qed.

Lemma fold_parse_element_contribution {bs : Soup} (now : nat -> string)
    (elements : list tag) :
  forall acc,
    map content (fold_left (parse_element now) elements acc)
    = map content acc ++ flat_map contribution elements.
Proof.
  induction elements as [| element elements IH]; intros acc; simpl.
  - rewrite app_nil_r. reflexivity.
  - rewrite IH, parse_element_contribution, <- app_assoc. reflexivity.
Qed.

Lemma contribution_length {bs : Soup} (element : tag) :
  (List.length (contribution element) <= 1)%nat.
Proof.
  unfold contribution.
  destruct (extract element) as [e | [[[[t |] [u |]] n] p]];
    try (simpl; lia).
  destruct (truthy (Some t) && truthy (Some u))%bool; simpl; lia.
Qed.

(** Apart from the times, the table is the concatenation, in the order
    of the containers, of what each container gives by itself (one
    record or none): a container has no influence on the records of the
    others, two lists of containers give the two tables one after the
    other, and there are at most as many records as containers. *)
Theorem table_is_concatenation :
  forall (bs : Soup) (now : nat -> string) (elements more : list tag),
    map content (parse_elements now elements) = flat_map contribution elements
    /\ map content (parse_elements now (elements ++ more))
       = map content (parse_elements now elements)
         ++ map content (parse_elements now more)
    /\ (List.length (parse_elements now elements) <= List.length elements)%nat.
Proof.
  intros bs now elements more.
  assert (H : forall l, map content (parse_elements now l) = flat_map contribution l).
  { intros l. unfold parse_elements.
    rewrite fold_parse_element_contribution. reflexivity. }
  split; [apply H |]. split.
  - rewrite !H. apply flat_map_app.
  - rewrite <- (length_map content), H.
    induction elements as [| element elements IH]; simpl; [lia |].
    rewrite length_app. pose proof (contribution_length element). lia.
Qed.



(** ** Title and metadata of one container *)

Lemma title_loop_hit {bs : Soup} (element : tag) (selector : string)
    (rest : list string) (te : tag) (v : string) (title0 : option string) :
  select_one element selector = inr (Some te) ->
  title_value te v ->
  v <> ""%string ->
  title_loop element (selector :: rest) title0 = inr (Some v).
Proof.
  intros Hsel Hv Hne. cbn [title_loop]. rewrite Hsel. cbn [bind].
  assert (Ht : truthy (Some v) = true) by (destruct v; [contradiction | reflexivity]).
  destruct Hv as [[Hattr _] | [attr [Hattr [Hf Htext]]]].
  - rewrite Hattr. cbn [bind]. rewrite Ht. cbn [bind ret]. rewrite Ht.
    reflexivity.
  - rewrite Hattr. cbn [bind]. rewrite Hf, Htext. cbn [bind ret]. rewrite Ht.
    reflexivity.
Qed.

Lemma title_loop_miss {bs : Soup} (element : tag) (selector : string)
    (rest : list string) (title0 : option string) :
  no_title_at element selector ->
  truthy title0 = false ->
  exists title1,
    truthy title1 = false
    /\ title_loop element (selector :: rest) title0
       = title_loop element rest title1.
Proof.
  intros Hno H0. cbn [title_loop].
  destruct Hno as [Hsel | [te [Hsel Hv]]]; rewrite Hsel; cbn [bind].
  - exists title0. split; [exact H0 | reflexivity].
  - exists (Some ""%string). split; [reflexivity |].
    destruct Hv as [[_ Hne] | [attr [Hattr [Hf Htext]]]]; [contradiction |].
    rewrite Hattr. cbn [bind]. rewrite Hf, Htext. reflexivity.
Qed.

Lemma title_loop_misses {bs : Soup} (element : tag) (pre rest : list string) :
  Forall (no_title_at element) pre ->
  forall title0,
    truthy title0 = false ->
    exists title1,
      truthy title1 = false
      /\ title_loop element (pre ++ rest) title0
         = title_loop element rest title1.
Proof.
  induction 1 as [| s pre Hs _ IH]; intros title0 H0.
  - exists title0. split; [exact H0 | reflexivity].
  - destruct (title_loop_miss element s (pre ++ rest) title0 Hs H0)
      as [t1 [H1 Heq]].
    destruct (IH t1 H1) as [t2 [H2 Heq2]].
    exists t2. split; [exact H2 |].
    change ((s :: pre) ++ rest) with (s :: (pre ++ rest)).
    rewrite Heq. exact Heq2.
Qed.

(** The title of a container comes from the first title selector whose
    element gives a title that is not empty, the [title] attribute
    before the text; selectors that match nothing or give the empty
    title are passed over.  When all five are of that kind the container
    gives no record. *)
Theorem title_from_first_usable_selector :
  forall (bs : Soup) (now : nat -> string) (element : tag),
    (forall pre selector post title_elem v,
        Forall (no_title_at element) pre ->
        select_one element selector = inr (Some title_elem) ->
        title_value title_elem v ->
        v <> ""%string ->
        title_loop element (pre ++ selector :: post) None = inr (Some v))
    /\ (Forall (no_title_at element) title_selectors ->
        forall videos, parse_element now videos element = videos).
Proof.
  intros bs now element. split.
  - intros pre selector post te v Hpre Hsel Hv Hne.
    destruct (title_loop_misses element pre (selector :: post) Hpre None eq_refl)
      as [t1 [_ ->]].
    eapply title_loop_hit; eassumption.
  - intros Hall videos.
    destruct (title_loop_misses element title_selectors [] Hall None eq_refl)
      as [t1 [H1 Heq]].
    rewrite app_nil_r in Heq. cbn [title_loop] in Heq.
    unfold parse_element, extract. rewrite Heq. cbn [bind ret].
    destruct (extract_url element) as [e | url]; [reflexivity |]. cbn [bind].
    destruct (metadata_loop element metadata_selectors 0 "N/A"%string)
      as [e | meta]; [reflexivity |]. cbn [bind ret].
    destruct t1 as [t1 |]; [| reflexivity].
    destruct url as [url |]; [| reflexivity].
    cbv beta iota. rewrite H1. reflexivity.
Qed.

Lemma metadata_loop_singles {bs : Soup} (element : tag) (pre rest : list string) :
  Forall (one_or_no_span element) pre ->
  forall views posted,
    exists views',
      metadata_loop element (pre ++ rest) views posted
      = metadata_loop element rest views' posted.
Proof.
  induction 1 as [| s pre Hs _ IH]; intros views posted.
  - exists views. reflexivity.
  - change ((s :: pre) ++ rest) with (s :: (pre ++ rest)).
    cbn [metadata_loop].
    destruct Hs as [Hsel | [s0 [t [Hsel Ht]]]]; rewrite Hsel; cbn [bind].
    + apply IH.
    + rewrite Ht. cbn [bind]. apply IH.
Qed.

(** Views and posted label of a container come from the first metadata
    selector that finds two or more spans, whatever selectors with one
    span or none came before it; when no selector finds two spans the
    posted label stays as it was (the "N/A" of the start). *)
Theorem metadata_from_first_pair :
  forall (bs : Soup) (element : tag),
    (forall pre selector post s0 s1 more t0 t1 views posted,
        Forall (one_or_no_span element) pre ->
        select element selector = inr (s0 :: s1 :: more) ->
        get_text s0 = inr t0 ->
        get_text s1 = inr t1 ->
        metadata_loop element (pre ++ selector :: post) views posted
        = inr (convert_views_to_number t0, t1))
    /\ (forall sels views posted,
           Forall (one_or_no_span element) sels ->
           exists views',
             metadata_loop element sels views posted = inr (views', posted)).
Proof.
  intros bs element. split.
  - intros pre selector post s0 s1 more t0 t1 views posted Hpre Hsel H0 H1.
    destruct (metadata_loop_singles element pre (selector :: post) Hpre
                views posted) as [views' ->].
    cbn [metadata_loop]. rewrite Hsel. cbn [bind].
    rewrite H0. cbn [bind]. rewrite H1. reflexivity.
  - intros sels views posted Hall.
    destruct (metadata_loop_singles element sels [] Hall views posted)
      as [views' Heq].
    rewrite app_nil_r in Heq. exists views'. rewrite Heq. reflexivity.
Qed.

Lemma title_from_first_usable_selector_witness :
  @title_loop Samples.bs4 (nth 0 Samples.rich_items (Dom.document []))
    (["#video-title"%string] ++ "a#video-title-link"%string
       :: ["a[title]"; "h3 a"; "yt-formatted-string#video-title"]%string)
    None
  = inr (Some "R1"%string)
  /\ @parse_element Samples.bs4 Samples.clock [] Samples.third_entry = [].
Proof.
  split.
  - apply (proj1 (title_from_first_usable_selector Samples.bs4 Samples.clock
                    (nth 0 Samples.rich_items (Dom.document [])))
             ["#video-title"%string] "a#video-title-link"%string
             ["a[title]"; "h3 a"; "yt-formatted-string#video-title"]%string
             (Samples.span_of (nth 0 Samples.rich_items (Dom.document []))
                "a#video-title-link" 0)
             "R1"%string).
    + constructor; [left; vm_compute; reflexivity | constructor].
    + vm_compute. reflexivity.
    + left. split; [vm_compute; reflexivity | discriminate].
    + discriminate.
  - apply (proj2 (title_from_first_usable_selector Samples.bs4 Samples.clock
                    Samples.third_entry)).
    constructor.
    { right. exists (Samples.span_of Samples.third_entry "#video-title" 0).
      split; [vm_compute; reflexivity |].
      right. exists None. repeat split; vm_compute; reflexivity. }
    repeat (constructor; [left; vm_compute; reflexivity |]).
    constructor.
Defined.

Lemma metadata_from_first_pair_witness :
  @metadata_loop Samples.bs4 Samples.fallthrough_entry
    (["#metadata-line span"; "div#metadata-line span"]%string
       ++ "ytd-video-meta-block span"%string :: [])
    0 "N/A"%string
  = inr (convert_views_to_number "7 views", "2 days ago"%string)
  /\ exists views,
       @metadata_loop Samples.bs4 Samples.single_entry metadata_selectors
         0 "N/A"%string
       = inr (views, "N/A"%string).
Proof.
  split.
  - apply (proj1 (metadata_from_first_pair Samples.bs4 Samples.fallthrough_entry)
             ["#metadata-line span"; "div#metadata-line span"]%string
             "ytd-video-meta-block span"%string []
             (Samples.span_of Samples.fallthrough_entry
                "ytd-video-meta-block span" 0)
             (Samples.span_of Samples.fallthrough_entry
                "ytd-video-meta-block span" 1)
             [] "7 views"%string "2 days ago"%string 0 "N/A"%string).
    + constructor; [| constructor; [| constructor]];
        right;
        exists (Samples.span_of Samples.fallthrough_entry "#metadata-line span" 0),
          "5 views"%string;
        split; vm_compute; reflexivity.
    + vm_compute. reflexivity.
    + vm_compute. reflexivity.
    + vm_compute. reflexivity.
  - apply (proj2 (metadata_from_first_pair Samples.bs4 Samples.single_entry)
             metadata_selectors 0 "N/A"%string).
    constructor; [| constructor; [| constructor; [| constructor]]].
    + right.
      exists (Samples.span_of Samples.single_entry "#metadata-line span" 0),
        "9 views"%string.
      split; vm_compute; reflexivity.
    + right.
      exists (Samples.span_of Samples.single_entry "#metadata-line span" 0),
        "9 views"%string.
      split; vm_compute; reflexivity.
    + left. vm_compute. reflexivity.
Defined.

(** ** Printing a count and reading it back *)

Lemma digits_value_append (a : Z) (s t : string) :
  digits_value a (s ++ t)%string = digits_value (digits_value a s) t.
Proof.
  revert a. induction s as [| c s IH]; intros a; [reflexivity |].
  change ((String c s ++ t)%string) with (String c (s ++ t)%string).
  cbn [digits_value]. apply IH.
Qed.

Lemma digit_char_code (d : Z) :
  0 <= d < 10 -> PyStr.code (PyExt.digit_char d) = (48 + Z.to_nat d)%nat.
Proof.
  intros H. unfold PyStr.code, PyExt.digit_char.
  apply nat_ascii_embedding. lia.
Qed.

Lemma digit_char_isdigit (d : Z) :
  0 <= d < 10 -> PyStr.isdigit (PyExt.digit_char d) = true.
Proof.
  intros H. unfold PyStr.isdigit, PyStr.between.
  rewrite (digit_char_code d H).
  apply andb_true_intro. split; apply Nat.leb_le; lia.
Qed.

Lemma digit_char_value (d : Z) :
  0 <= d < 10 -> digit_value (PyExt.digit_char d) = d.
Proof.
  intros H. unfold digit_value. rewrite (digit_char_code d H). lia.
Qed.

Lemma digits_of_step (fuel : nat) (n : Z) (acc : string) :
  PyExt.digits_of (S fuel) n acc
  = if n <? 10 then String (PyExt.digit_char (n mod 10)) acc
    else PyExt.digits_of fuel (n / 10) (String (PyExt.digit_char (n mod 10)) acc).
Proof. reflexivity. Qed.

(** The digits written for [n]: all digits, at least one, no more than
    [n] needs, and of value [n]. *)
Lemma digits_of_spec (fuel : nat) :
  forall n acc,
    0 <= n < 10 ^ Z.of_nat (S fuel) ->
    exists ds,
      PyExt.digits_of (S fuel) n acc = (ds ++ acc)%string
      /\ PyStr.forallb PyStr.isdigit ds = true
      /\ ds <> ""%string
      /\ (forall a, digits_value a ds
                    = a * 10 ^ Z.of_nat (String.length ds) + n)
      /\ 10 ^ (Z.of_nat (String.length ds) - 1) <= Z.max n 1.
Proof.
  induction fuel as [| fuel IH]; intros n acc Hn.
  - assert (Hlt : n < 10) by (change (10 ^ Z.of_nat 1) with 10 in Hn; lia).
    exists (String (PyExt.digit_char (n mod 10)) "").
    rewrite digits_of_step. apply Z.ltb_lt in Hlt. rewrite Hlt.
    apply Z.ltb_lt in Hlt.
    rewrite Z.mod_small by lia.
    split; [reflexivity |].
    split; [cbn [PyStr.forallb]; rewrite digit_char_isdigit by lia; reflexivity |].
    split; [discriminate |]. split.
    + intros a. cbn [digits_value String.length].
      rewrite digit_char_value by lia. change (10 ^ Z.of_nat 1) with 10. lia.
    + cbn [String.length]. change (10 ^ (Z.of_nat 1 - 1)) with 1. lia.
  - rewrite digits_of_step.
    destruct (n <? 10) eqn:Hlt.
    + apply Z.ltb_lt in Hlt.
      exists (String (PyExt.digit_char (n mod 10)) "").
      rewrite Z.mod_small by lia.
      split; [reflexivity |].
      split; [cbn [PyStr.forallb]; rewrite digit_char_isdigit by lia;
              reflexivity |].
      split; [discriminate |]. split.
      * intros a. cbn [digits_value String.length].
        rewrite digit_char_value by lia. change (10 ^ Z.of_nat 1) with 10. lia.
      * cbn [String.length]. change (10 ^ (Z.of_nat 1 - 1)) with 1. lia.
    + apply Z.ltb_ge in Hlt.
      assert (Hdiv : 0 <= n / 10 < 10 ^ Z.of_nat (S fuel)).
      { split; [apply Z.div_pos; lia |].
        apply Z.div_lt_upper_bound; [lia |].
        replace (Z.of_nat (S (S fuel))) with (Z.succ (Z.of_nat (S fuel))) in Hn
          by lia.
        rewrite Z.pow_succ_r in Hn by lia. lia. }
      destruct (IH (n / 10)
                  (String (PyExt.digit_char (n mod 10)) acc) Hdiv)
        as [ds [Heq [Hdig [Hne [Hval Hlow]]]]].
      assert (Hmod : 0 <= n mod 10 < 10) by (apply Z.mod_pos_bound; lia).
      exists (ds ++ String (PyExt.digit_char (n mod 10)) "")%string.
      split; [rewrite Heq, append_assoc_str; reflexivity |].
      split.
      { rewrite forallb_app, Hdig. cbn [PyStr.forallb].
        rewrite digit_char_isdigit by lia. reflexivity. }
      split; [destruct ds; discriminate |].
      assert (Hlen : Z.of_nat (String.length
                                 (ds ++ String (PyExt.digit_char (n mod 10)) ""))
                     = Z.succ (Z.of_nat (String.length ds))).
      { rewrite length_append_str. cbn [String.length]. lia. }
      split.
      * intros a. rewrite digits_value_append, Hval. cbn [digits_value].
        rewrite digit_char_value by lia.
        rewrite Hlen, Z.pow_succ_r by lia.
        pose proof (Z.div_mod n 10 ltac:(lia)). lia.
      * rewrite Hlen.
        replace (Z.succ (Z.of_nat (String.length ds)) - 1)
          with (Z.succ (Z.of_nat (String.length ds) - 1)) by lia.
        assert (Hpos : (0 < String.length ds)%nat)
          by (destruct ds; [contradiction | simpl; lia]).
        rewrite Z.pow_succ_r by lia.
        assert (1 <= n / 10) by (apply Z.div_le_lower_bound; lia).
        pose proof (Z.div_mod n 10 ltac:(lia)). lia.
Qed.

Lemma str_of_nonneg_spec (n : Z) :
  0 <= n ->
  exists ds,
    PyExt.str_of_nonneg n = ds
    /\ PyStr.forallb PyStr.isdigit ds = true
    /\ ds <> ""%string
    /\ digits_value 0 ds = n
    /\ 10 ^ (Z.of_nat (String.length ds) - 1) <= Z.max n 1.
Proof.
  intros Hn. unfold PyExt.str_of_nonneg.
  assert (Hfuel : 0 <= n < 10 ^ Z.of_nat (S (Z.to_nat (Z.log2 n)))).
  { split; [exact Hn |].
    destruct (Z.eq_dec n 0) as [-> | Hnz]; [reflexivity |].
    pose proof (Z.log2_nonneg n).
    replace (Z.of_nat (S (Z.to_nat (Z.log2 n)))) with (Z.succ (Z.log2 n)) by lia.
    apply Z.lt_le_trans with (2 ^ Z.succ (Z.log2 n)).
    - apply Z.log2_spec. lia.
    - apply Z.pow_le_mono_l. lia. }
  destruct (digits_of_spec (Z.to_nat (Z.log2 n)) n "" Hfuel)
    as [ds [Heq [Hdig [Hne [Hval Hlow]]]]].
  exists ds. rewrite Heq, append_empty_r.
  split; [reflexivity |]. split; [exact Hdig |]. split; [exact Hne |].
  split; [rewrite Hval; lia | exact Hlow].
Qed.

Lemma isdigit_plain (c : ascii) :
  PyStr.isdigit c = true ->
  numspace c = false /\ PyStr.isspace c = false /\ is_underscore c = false
  /\ number_char c = true
  /\ forall s, take_sign (String c s) = (false, String c s).
Proof.
  destruct c as [[] [] [] [] [] [] [] []]; vm_compute; intros H;
    try discriminate H; repeat split.
Qed.

Lemma rstrip_by_none (sp : ascii -> bool) (s : string) :
  PyStr.forallb (fun c => negb (sp c)) s = true -> PyStr.rstrip_by sp s = s.
Proof.
  induction s as [| c s IH]; intros H; [reflexivity |].
  cbn [PyStr.forallb] in H. apply andb_prop in H. destruct H as [Hc Hs].
  cbn [PyStr.rstrip_by]. rewrite (IH Hs).
  apply negb_true_iff in Hc. rewrite Hc. destruct s; reflexivity.
Qed.

Lemma remove_underscores_digits (s : string) :
  PyStr.forallb PyStr.isdigit s = true ->
  forall prev,
    match prev with Some p => is_underscore p = false | None => True end ->
    remove_underscores prev s = Some s.
Proof.
  induction s as [| c s IH]; intros H prev Hprev.
  - destruct prev as [p |]; simpl; [rewrite Hprev |]; reflexivity.
  - cbn [PyStr.forallb] in H. apply andb_prop in H. destruct H as [Hc Hs].
    destruct (isdigit_plain c Hc) as [_ [_ [Hus _]]].
    cbn [remove_underscores]. rewrite Hus, Hc. cbn [negb].
    rewrite andb_false_r.
    rewrite (IH Hs (Some c) Hus). reflexivity.
Qed.

Lemma int_of_str_digits (neg : bool) (ds : string) :
  PyStr.forallb PyStr.isdigit ds = true ->
  ds <> ""%string ->
  (String.length ds <= int_max_str_digits)%nat ->
  int_of_str (if neg then String "-" ds else ds)
  = inr (if neg then - digits_value 0 ds else digits_value 0 ds).
Proof.
  intros Hdig Hne Hlen.
  destruct ds as [| d ds]; [contradiction |].
  pose proof Hdig as Hd. cbn [PyStr.forallb] in Hd.
  apply andb_prop in Hd. destruct Hd as [Hd _].
  destruct (isdigit_plain d Hd) as [Hsp [_ [_ [_ Hsign]]]].
  assert (Hstrip : PyStr.rstrip_by numspace (String d ds) = String d ds).
  { apply rstrip_by_none. revert Hdig. apply forallb_impl.
    intros c Hc. destruct (isdigit_plain c Hc) as [-> _]. reflexivity. }
  assert (Hbody : take_sign
                    (PyStr.lstrip_by numspace
                       (if neg then String "-" (String d ds) else String d ds))
                  = (neg, String d ds)).
  { destruct neg.
    - reflexivity.
    - cbn [PyStr.lstrip_by]. rewrite Hsp. apply Hsign. }
  unfold int_of_str. rewrite Hbody, Hstrip.
  rewrite (remove_underscores_digits _ Hdig None I).
  rewrite Hdig. cbn [negb].
  apply Nat.ltb_ge in Hlen. rewrite Hlen. reflexivity.
Qed.

Lemma str_of_int_spec (n : Z) :
  Z.abs n < 10 ^ 4300 ->
  exists ds,
    PyExt.str_of_int n = (if n <? 0 then String "-" ds else ds)
    /\ PyStr.forallb PyStr.isdigit ds = true
    /\ ds <> ""%string
    /\ (String.length ds <= int_max_str_digits)%nat
    /\ digits_value 0 ds = Z.abs n.
Proof.
  intros Hn.
  destruct (str_of_nonneg_spec (Z.abs n) (Z.abs_nonneg n))
    as [ds [Heq [Hdig [Hne [Hval Hlow]]]]].
  exists ds.
  split.
  { unfold PyExt.str_of_int. destruct (n <? 0) eqn:E.
    - apply Z.ltb_lt in E. rewrite <- Heq.
      replace (Z.abs n) with (- n) by lia. reflexivity.
    - apply Z.ltb_ge in E. rewrite <- Heq.
      replace (Z.abs n) with n by lia. reflexivity. }
  split; [exact Hdig |]. split; [exact Hne |]. split; [| exact Hval].
  unfold int_max_str_digits.
  assert (Hpos : (0 < String.length ds)%nat)
    by (destruct ds; [contradiction | simpl; lia]).
  assert (H : Z.of_nat (String.length ds) - 1 < 4300).
  { apply (Z.pow_lt_mono_r_iff 10); [lia | lia |].
    apply Z.le_lt_trans with (Z.max (Z.abs n) 1); [exact Hlow |].
    apply Z.max_lub_lt; [exact Hn |].
    apply Z.pow_gt_1; lia. }
  lia.
Qed.

Lemma int_of_str_of_int (n : Z) :
  Z.abs n < 10 ^ 4300 -> int_of_str (PyExt.str_of_int n) = inr n.
Proof.
  intros Hn.
  destruct (str_of_int_spec n Hn) as [ds [-> [Hdig [Hne [Hlen Hval]]]]].
  rewrite (int_of_str_digits (n <? 0) ds Hdig Hne Hlen), Hval.
  destruct (n <? 0) eqn:E; [apply Z.ltb_lt in E | apply Z.ltb_ge in E];
    f_equal; lia.
Qed.

Lemma str_of_int_number (n : Z) :
  Z.abs n < 10 ^ 4300 ->
  PyStr.forallb number_char (PyExt.str_of_int n) = true
  /\ PyExt.str_of_int n <> ""%string.
Proof.
  intros Hn.
  destruct (str_of_int_spec n Hn) as [ds [-> [Hdig [Hne _]]]].
  assert (Hnum : PyStr.forallb number_char ds = true).
  { revert Hdig. apply forallb_impl. intros c Hc.
    apply (isdigit_plain c Hc). }
  destruct (n <? 0).
  - split; [cbn [PyStr.forallb]; rewrite Hnum; reflexivity | discriminate].
  - split; assumption.
Qed.

(** A number followed by the unit word, in the plural or the singular:
    what is left after the unit word and white space are stripped. *)
Lemma unit_stripped_plain (number unit : string) :
  PyStr.forallb number_char number = true ->
  number <> ""%string ->
  unit = " views"%string \/ unit = " view"%string \/ unit = ""%string ->
  unit_stripped (number ++ unit)%string = number.
Proof.
  intros Hnum Hne Hunit.
  assert (Hblank : lacks " " number = true)
    by (apply lacks_of_number; [reflexivity | exact Hnum]).
  assert (H1 : PyStr.replace
                 (PyStr.replace (number ++ unit)%string " views" "") " view" ""
               = number).
  { unfold PyStr.replace.
    rewrite (replace_from_lacks " " "views" "" number _ Hblank).
    destruct Hunit as [-> | [-> | ->]].
    - change (PyStr.replace_from " views" "" 0 " views") with ""%string.
      rewrite append_empty_r.
      apply (replace_lacks " " "view" "" number Hblank).
    - change (PyStr.replace_from " views" "" 0 " view") with " view"%string.
      rewrite (replace_from_lacks " " "view" "" number _ Hblank).
      change (PyStr.replace_from " view" "" 0 " view") with ""%string.
      apply append_empty_r.
    - change (PyStr.replace_from " views" "" 0 "") with ""%string.
      rewrite append_empty_r.
      apply (replace_lacks " " "view" "" number Hblank). }
  unfold unit_stripped. rewrite H1. unfold PyStr.strip.
  assert (Hl : PyStr.lstrip_by PyStr.isspace number = number).
  { destruct number as [| x number]; [reflexivity |].
    cbn [PyStr.forallb] in Hnum. apply andb_prop in Hnum.
    destruct Hnum as [Hx _]. simpl.
    rewrite (number_char_not_space x Hx). reflexivity. }
  rewrite Hl. apply rstrip_by_none.
  revert Hnum. apply forallb_impl. intros c Hc.
  rewrite (number_char_not_space c Hc). reflexivity.
Qed.

(** A count written out in decimal and followed by the unit word (or by
    nothing) is read back as the same number: for every integer of at
    most 4300 digits, negative ones included. *)
Theorem convert_views_reads_back_decimal :
  forall n,
    Z.abs n < 10 ^ 4300 ->
    convert_views_to_number (PyExt.str_of_int n ++ " views")%string = n
    /\ convert_views_to_number (PyExt.str_of_int n ++ " view")%string = n
    /\ convert_views_to_number (PyExt.str_of_int n) = n.
Proof.
  intros n Hn.
  destruct (str_of_int_number n Hn) as [Hnum Hne].
  assert (H : forall unit,
             unit = " views"%string \/ unit = " view"%string \/ unit = ""%string ->
             convert_views_to_number (PyExt.str_of_int n ++ unit)%string = n).
  { intros unit Hunit.
    rewrite convert_views_to_number_unfold. unfold normalizer_spec.
    rewrite (unit_stripped_plain _ unit Hnum Hne Hunit). cbv zeta.
    rewrite (contains_lacks "K"), (contains_lacks "M"), (contains_lacks "B")
      by (apply lacks_of_number; [reflexivity | exact Hnum]).
    unfold plain_integer.
    rewrite (replace_lacks "," "" "")
      by (apply lacks_of_number; [reflexivity | exact Hnum]).
    rewrite (int_of_str_of_int n Hn). reflexivity. }
  split; [apply H; left; reflexivity |].
  split; [apply H; right; left; reflexivity |].
  rewrite <- (append_empty_r (PyExt.str_of_int n)).
  apply H. right. right. reflexivity.
Qed.

Lemma convert_views_reads_back_decimal_witness :
  Z.abs 1234567 < 10 ^ 4300
  /\ convert_views_to_number (PyExt.str_of_int 1234567 ++ " views")%string
     = 1234567.
Proof.
  assert (H : Z.abs 1234567 < 10 ^ 4300).
  { apply Z.lt_le_trans with (10 ^ 7); [reflexivity |].
    apply Z.pow_le_mono_r; lia. }
  split; [exact H |].
  apply (proj1 (convert_views_reads_back_decimal 1234567 H)).
Defined.

(** ** The parameters of the request *)

(** The request carries the key and the address as given; with
    rendering on it also carries [js_render] and the wait, written so
    that it reads back as the same number; with rendering off it carries
    neither. *)
Theorem zenrows_params_carry :
  forall url api_key js_render wait_time,
    Dom.lookup "apikey" (zenrows_params url api_key js_render wait_time)
    = Some api_key
    /\ Dom.lookup "url" (zenrows_params url api_key js_render wait_time)
       = Some url
    /\ (js_render = true ->
        Z.abs wait_time < 10 ^ 4300 ->
        Dom.lookup "js_render" (zenrows_params url api_key js_render wait_time)
        = Some "true"%string
        /\ exists w,
             Dom.lookup "wait" (zenrows_params url api_key js_render wait_time)
             = Some w
             /\ int_of_str w = inr wait_time)
    /\ (js_render = false ->
        Dom.lookup "js_render" (zenrows_params url api_key js_render wait_time)
        = None
        /\ Dom.lookup "wait" (zenrows_params url api_key js_render wait_time)
           = None).
Proof.
  intros url api_key js_render wait_time.
  split; [reflexivity |]. split; [reflexivity |]. split.
  - intros -> Hw. split; [reflexivity |].
    exists (PyExt.str_of_int wait_time). split; [reflexivity |].
    apply int_of_str_of_int. exact Hw.
  - intros ->. split; reflexivity.
Qed.

Lemma zenrows_params_carry_witness :
  Dom.lookup "wait" (zenrows_params "u" "k" true 5000) = Some "5000"%string
  /\ exists w,
       Dom.lookup "wait" (zenrows_params "u" "k" true 5000) = Some w
       /\ int_of_str w = inr 5000.
Proof.
  split; [reflexivity |].
  assert (H : Z.abs 5000 < 10 ^ 4300).
  { apply Z.lt_le_trans with (10 ^ 4); [reflexivity |].
    apply Z.pow_le_mono_r; lia. }
  apply (proj1 (proj2 (proj2 (zenrows_params_carry "u" "k" true 5000)))
           eq_refl H).
Defined.

(** ** Whole numbers as floats *)

(** The number of binary digits of a positive number. *)
Lemma digits2_bounds (p : positive) :
  2 ^ (Z.pos (digits2_pos p) - 1) <= Z.pos p < 2 ^ Z.pos (digits2_pos p).
Proof.
  induction p as [p IH | p IH |]; cbn [digits2_pos].
  - rewrite Pos2Z.inj_succ.
    replace (Z.succ (Z.pos (digits2_pos p)) - 1)
      with (Z.succ (Z.pos (digits2_pos p) - 1)) by lia.
    rewrite !Z.pow_succ_r by lia. lia.
  - rewrite Pos2Z.inj_succ.
    replace (Z.succ (Z.pos (digits2_pos p)) - 1)
      with (Z.succ (Z.pos (digits2_pos p) - 1)) by lia.
    rewrite !Z.pow_succ_r by lia. lia.
  - simpl. lia.
Qed.

Lemma digits2_unique (p : positive) (d : Z) :
  2 ^ (d - 1) <= Z.pos p < 2 ^ d -> Z.pos (digits2_pos p) = d.
Proof.
  intros [Hlo Hhi]. pose proof (digits2_bounds p) as [Blo Bhi].
  assert (0 < d).
  { destruct (Z_lt_le_dec 0 d) as [H | H]; [exact H |].
    exfalso. destruct (Z.eq_dec d 0) as [-> | Hd].
    - simpl in Hhi. lia.
    - rewrite Z.pow_neg_r in Hhi by lia. lia. }
  destruct (Z_lt_le_dec (Z.pos (digits2_pos p)) d) as [Hlt | Hge].
  - exfalso.
    assert (2 ^ Z.pos (digits2_pos p) <= 2 ^ (d - 1))
      by (apply Z.pow_le_mono_r; lia).
    lia.
  - destruct (Z_lt_le_dec d (Z.pos (digits2_pos p))) as [Hlt | Hle]; [| lia].
    exfalso.
    assert (2 ^ d <= 2 ^ (Z.pos (digits2_pos p) - 1))
      by (apply Z.pow_le_mono_r; lia).
    lia.
Qed.

Lemma digits2_shift (p q : positive) (s : Z) :
  0 <= s -> Z.pos q = Z.pos p * 2 ^ s ->
  Z.pos (digits2_pos q) = Z.pos (digits2_pos p) + s.
Proof.
  intros Hs Hq. apply digits2_unique. rewrite Hq.
  pose proof (digits2_bounds p) as [Blo Bhi].
  replace (Z.pos (digits2_pos p) + s - 1)
    with ((Z.pos (digits2_pos p) - 1) + s) by lia.
  rewrite !Z.pow_add_r by lia.
  assert (0 < 2 ^ s) by (apply Z.pow_pos_nonneg; lia).
  split; nia.
Qed.

(** Shifting out [n] zero bits loses nothing. *)
Lemma iter_shr_1_exact (n : positive) :
  forall m,
    (2 ^ Z.pos n | m) ->
    iter_pos shr_1 n (Build_shr_record m false false)
    = Build_shr_record (m / 2 ^ Z.pos n) false false.
Proof.
  assert (Hone : forall m, (2 | m) ->
            shr_1 (Build_shr_record m false false)
            = Build_shr_record (m / 2) false false).
  { intros m [k ->]. rewrite Z.div_mul by lia.
    replace (k * 2) with (2 * k) by lia.
    destruct k as [| k | k]; reflexivity. }
  induction n as [n IH | n IH |]; intros m Hdiv; cbn [iter_pos].
  - change (Z.pos n~1) with (2 * Z.pos n + 1) in *.
    replace (2 * Z.pos n + 1) with (1 + Z.pos n + Z.pos n) in * by lia.
    rewrite !Z.pow_add_r in * by lia. change (2 ^ 1) with 2 in *.
    destruct Hdiv as [k ->].
    assert (0 < 2 ^ Z.pos n) by (apply Z.pow_pos_nonneg; lia).
    rewrite Hone by (exists (k * 2 ^ Z.pos n * 2 ^ Z.pos n); lia).
    replace (k * (2 * 2 ^ Z.pos n * 2 ^ Z.pos n) / 2)
      with (k * 2 ^ Z.pos n * 2 ^ Z.pos n)
      by (apply Z.div_unique_exact; lia).
    rewrite IH by (exists (k * 2 ^ Z.pos n); lia).
    rewrite Z.div_mul by lia.
    rewrite IH by (exists k; lia).
    rewrite Z.div_mul by lia.
    f_equal. apply Z.div_unique_exact; nia.
  - change (Z.pos n~0) with (2 * Z.pos n) in *.
    replace (2 * Z.pos n) with (Z.pos n + Z.pos n) in * by lia.
    rewrite !Z.pow_add_r in * by lia.
    destruct Hdiv as [k ->].
    assert (0 < 2 ^ Z.pos n) by (apply Z.pow_pos_nonneg; lia).
    rewrite IH by (exists (k * 2 ^ Z.pos n); lia).
    replace (k * (2 ^ Z.pos n * 2 ^ Z.pos n) / 2 ^ Z.pos n)
      with (k * 2 ^ Z.pos n)
      by (apply Z.div_unique_exact; lia).
    rewrite IH by (exists k; lia).
    rewrite Z.div_mul by lia.
    f_equal. apply Z.div_unique_exact; nia.
  - apply Hone. exact Hdiv.
Qed.

(** A mantissa whose surplus bits are all zero is rounded to itself. *)
Lemma binary_round_aux_exact (mx : positive) (ex n : Z) (m' : positive) :
  fexp prec emax (Z.pos (digits2_pos mx) + ex) - ex = n ->
  0 < n ->
  Z.pos mx = Z.pos m' * 2 ^ n ->
  ex + n <= emax - prec ->
  binary_round_aux prec emax false (Z.pos mx) ex loc_Exact
  = S754_finite false m' (ex + n).
Proof.
  intros Hn Hpos Hm Hmax.
  assert (H2n : 0 < 2 ^ n) by (apply Z.pow_pos_nonneg; lia).
  assert (Hdig : Z.pos (digits2_pos mx) = Z.pos (digits2_pos m') + n)
    by (apply digits2_shift; [lia | exact Hm]).
  unfold binary_round_aux, shr_fexp.
  cbn [Zdigits2 shr_record_of_loc]. rewrite Hn.
  destruct n as [| p | p]; try lia.
  cbn [shr].
  rewrite iter_shr_1_exact by (exists (Z.pos m'); exact Hm).
  rewrite Hm, Z.div_mul by lia.
  cbn [shr_m loc_of_shr_record round_nearest_even Zdigits2 shr_record_of_loc].
  replace (fexp prec emax (Z.pos (digits2_pos m') + (ex + Z.pos p))
           - (ex + Z.pos p)) with 0.
  2:{ rewrite Hdig in Hn.
      replace (Z.pos (digits2_pos m') + (ex + Z.pos p))
        with (Z.pos (digits2_pos m') + Z.pos p + ex) by lia.
      lia. }
  cbn [shr shr_m].
  apply Z.leb_le in Hmax. rewrite Hmax. reflexivity.
Qed.

Lemma round_ratio_whole (q : positive) :
  Z.pos q < 2 ^ 53 -> whole_float q (round_ratio false (Z.pos q) 1).
Proof.
  intros Hq.
  pose proof (digits2_bounds q) as [Blo Bhi].
  set (d := Z.pos (digits2_pos q)) in *.
  assert (Hd : 1 <= d <= 53).
  { split; [unfold d; lia |].
    destruct (Z_lt_le_dec 53 d) as [H | H]; [| exact H].
    exfalso. assert (2 ^ 53 <= 2 ^ (d - 1)) by (apply Z.pow_le_mono_r; lia).
    lia. }
  unfold round_ratio, SFdiv_core_binary.
  cbv zeta. cbn [Zdigits2]. change (Z.pos (digits2_pos 1)) with 1. fold d.
  replace (Z.min (fexp prec emax (d + 0 - (1 + 0))) (0 - 0)) with (d - 54)
    by (unfold fexp, emin, prec, emax; lia).
  replace (0 - 0 - (d - 54)) with (54 - d) by lia.
  destruct (54 - d) as [| s | s] eqn:Hs; try lia.
  rewrite Z.shiftl_mul_pow2 by lia.
  assert (H2s : 0 < 2 ^ Z.pos s) by (apply Z.pow_pos_nonneg; lia).
  assert (Hmz : exists mz, Z.pos mz = Z.pos q * 2 ^ Z.pos s).
  { destruct (Z.pos q * 2 ^ Z.pos s) as [| mz | mz] eqn:E; try lia.
    exists mz. reflexivity. }
  destruct Hmz as [mz Hmz]. rewrite <- Hmz.
  assert (Hdiv : Z.div_eucl (Z.pos mz) 1 = (Z.pos mz, 0)).
  { pose proof (Z.div_eucl_eq (Z.pos mz) 1 ltac:(lia)) as E.
    pose proof (Z.mod_pos_bound (Z.pos mz) 1 ltac:(lia)) as B.
    unfold Z.modulo in B.
    destruct (Z.div_eucl (Z.pos mz) 1) as [a b]. f_equal; lia. }
  rewrite Hdiv.
  change (new_location 1 0) with loc_Exact.
  assert (Hm' : exists m', Z.pos m' = Z.pos q * 2 ^ (53 - d)).
  { assert (0 < 2 ^ (53 - d)) by (apply Z.pow_pos_nonneg; lia).
    destruct (Z.pos q * 2 ^ (53 - d)) as [| m' | m'] eqn:E; try lia.
    exists m'. reflexivity. }
  destruct Hm' as [m' Hm'].
  assert (Hmz' : Z.pos mz = Z.pos m' * 2 ^ 1).
  { rewrite Hmz, Hm'. rewrite <- Z.mul_assoc, <- Z.pow_add_r by lia.
    f_equal. f_equal. lia. }
  assert (Hdz : Z.pos (digits2_pos mz) = 54).
  { rewrite (digits2_shift q mz (Z.pos s)) by (lia || exact Hmz).
    fold d. lia. }
  rewrite (binary_round_aux_exact mz (d - 54) 1 m').
  - exists m'. split; [f_equal; lia | exact Hm'].
  - rewrite Hdz. unfold fexp, emin, prec, emax. lia.
  - lia.
  - exact Hmz'.
  - unfold emax, prec. lia.
Qed.

Lemma pos_of_product (a : positive) (s : Z) :
  0 <= s -> exists m, Z.pos m = Z.pos a * 2 ^ s.
Proof.
  intros Hs. assert (0 < 2 ^ s) by (apply Z.pow_pos_nonneg; lia).
  destruct (Z.pos a * 2 ^ s) as [| m | m] eqn:E; try lia.
  exists m. reflexivity.
Qed.

Lemma digits2_le_53 (q : positive) :
  Z.pos q < 2 ^ 53 -> 1 <= Z.pos (digits2_pos q) <= 53.
Proof.
  intros Hq. pose proof (digits2_bounds q) as [Blo Bhi].
  split; [lia |].
  destruct (Z_lt_le_dec 53 (Z.pos (digits2_pos q))) as [H | H]; [| exact H].
  exfalso.
  assert (2 ^ 53 <= 2 ^ (Z.pos (digits2_pos q) - 1))
    by (apply Z.pow_le_mono_r; lia).
  lia.
Qed.

(** The product of two whole floats is the float of the product, as
    long as that is below [2^53]. *)
Lemma SFmul_whole (p k : positive) (x y : float) :
  whole_float p x -> whole_float k y ->
  Z.pos (p * k) < 2 ^ 53 ->
  whole_float (p * k) (SFmul prec emax x y).
Proof.
  intros [mx [-> Hmx]] [my [-> Hmy]] Hpk.
  pose proof (digits2_bounds p) as [Plo Phi].
  pose proof (digits2_bounds k) as [Klo Khi].
  pose proof (digits2_bounds (p * k)) as [Qlo Qhi].
  pose proof (digits2_le_53 (p * k) Hpk) as Hd3.
  set (dp := Z.pos (digits2_pos p)) in *.
  set (dk := Z.pos (digits2_pos k)) in *.
  set (d3 := Z.pos (digits2_pos (p * k))) in *.
  assert (Hdp : 1 <= dp) by (unfold dp; lia).
  assert (Hdk : 1 <= dk) by (unfold dk; lia).
  assert (Hprod : Z.pos (p * k) = Z.pos p * Z.pos k) by reflexivity.
  assert (Hlow : dp + dk - 2 < d3).
  { apply (Z.pow_lt_mono_r_iff 2); [lia | lia |].
    apply Z.le_lt_trans with (Z.pos (p * k)); [| exact Qhi].
    replace (dp + dk - 2) with ((dp - 1) + (dk - 1)) by lia.
    rewrite Z.pow_add_r, Hprod by lia.
    apply Z.mul_le_mono_nonneg; try lia;
      apply Z.pow_nonneg; lia. }
  assert (Hhigh : d3 <= dp + dk).
  { destruct (Z_lt_le_dec (dp + dk) d3) as [H | H]; [| exact H].
    exfalso.
    assert (2 ^ (dp + dk) <= 2 ^ (d3 - 1)) by (apply Z.pow_le_mono_r; lia).
    rewrite Z.pow_add_r in * by lia. nia. }
  destruct (pos_of_product (p * k) (53 - d3) ltac:(lia)) as [m' Hm'].
  cbn [SFmul xorb].
  assert (Hmm : Z.pos (mx * my) = Z.pos (p * k) * 2 ^ (106 - dp - dk)).
  { change (Z.pos (mx * my)) with (Z.pos mx * Z.pos my).
    rewrite Hmx, Hmy, Hprod.
    replace (106 - dp - dk) with ((53 - dp) + (53 - dk)) by lia.
    rewrite Z.pow_add_r by lia. ring. }
  rewrite (binary_round_aux_exact (mx * my) (dp - 53 + (dk - 53))
             (d3 + 53 - dp - dk) m').
  - exists m'. split; [f_equal; lia | exact Hm'].
  - rewrite (digits2_shift (p * k) (mx * my) (106 - dp - dk))
      by (lia || exact Hmm).
    fold d3. unfold fexp, emin, prec, emax. lia.
  - lia.
  - rewrite Hmm, Hm', <- Z.mul_assoc, <- Z.pow_add_r by lia.
    f_equal. f_equal. lia.
  - unfold emax, prec. lia.
Qed.

Lemma int_of_whole_float (q : positive) (x : float) :
  Z.pos q < 2 ^ 53 -> whole_float q x -> int_of_float x = inr (Z.pos q).
Proof.
  intros Hq [m [-> Hm]].
  pose proof (digits2_le_53 q Hq) as Hd.
  unfold int_of_float.
  destruct (0 <=? Z.pos (digits2_pos q) - 53) eqn:E.
  - apply Z.leb_le in E.
    replace (Z.pos (digits2_pos q) - 53) with 0 by lia.
    replace (53 - Z.pos (digits2_pos q)) with 0 in Hm by lia.
    rewrite Hm. unfold ret. f_equal. change (2 ^ 0) with 1. lia.
  - replace (- (Z.pos (digits2_pos q) - 53))
      with (53 - Z.pos (digits2_pos q)) by lia.
    rewrite Hm, Z.div_mul; [reflexivity |].
    apply Z.pow_nonzero; lia.
Qed.

Lemma float_of_int_whole (k : positive) :
  Z.pos k < 2 ^ 53 -> whole_float k (float_of_int (Z.pos k)).
Proof. intros Hk. apply round_ratio_whole. exact Hk. Qed.

(** A whole number times a whole factor, through the floats. *)
Lemma mul_int_whole (n : Z) (k : positive) :
  0 <= n -> Z.pos k < 2 ^ 53 -> n * Z.pos k < 2 ^ 53 ->
  int_of_float (mul_int (round_ratio false n 1) (Z.pos k)) = inr (n * Z.pos k).
Proof.
  intros Hn Hk Hnk.
  destruct n as [| p | p]; try lia.
  - unfold mul_int.
    destruct (float_of_int_whole k Hk) as [m [-> _]]. reflexivity.
  - assert (Hp : Z.pos p < 2 ^ 53) by nia.
    unfold mul_int.
    apply (int_of_whole_float (p * k)); [exact Hnk |].
    apply SFmul_whole;
      [apply round_ratio_whole; exact Hp | apply float_of_int_whole; exact Hk
      | exact Hnk].
Qed.

Lemma span_all (p : ascii -> bool) (s : string) :
  PyStr.forallb p s = true -> PyStr.span p s = (s, ""%string).
Proof.
  induction s as [| c s IH]; intros H; [reflexivity |].
  cbn [PyStr.forallb] in H. apply andb_prop in H. destruct H as [Hc Hs].
  cbn [PyStr.span]. rewrite Hc, (IH Hs). reflexivity.
Qed.

Lemma digit_not_word (d : ascii) :
  PyStr.isdigit d = true ->
  forall s w,
    String.eqb (PyStr.lowercase (String d s)) (String "i" w) = false
    /\ String.eqb (PyStr.lowercase (String d s)) (String "n" w) = false.
Proof.
  destruct d as [[] [] [] [] [] [] [] []]; vm_compute; intros H;
    try discriminate H; intros s w; split; reflexivity.
Qed.

(** [float] of a string of digits is the nearest float of its value. *)
Lemma float_of_str_digits (ds : string) :
  PyStr.forallb PyStr.isdigit ds = true ->
  ds <> ""%string ->
  float_of_str ds = inr (round_ratio false (digits_value 0 ds) 1).
Proof.
  intros Hdig Hne.
  destruct ds as [| d ds]; [contradiction |].
  pose proof Hdig as Hd. cbn [PyStr.forallb] in Hd.
  apply andb_prop in Hd. destruct Hd as [Hd _].
  destruct (isdigit_plain d Hd) as [Hsp [_ [_ [_ Hsign]]]].
  assert (Hstrip : strip_numspace (String d ds) = String d ds).
  { unfold strip_numspace. cbn [PyStr.lstrip_by]. rewrite Hsp.
    apply rstrip_by_none. revert Hdig. apply forallb_impl.
    intros c Hc. destruct (isdigit_plain c Hc) as [-> _]. reflexivity. }
  unfold float_of_str. rewrite Hstrip.
  rewrite (remove_underscores_digits _ Hdig None I).
  rewrite Hsign.
  destruct (digit_not_word d Hd ds "nf") as [Hinf _].
  destruct (digit_not_word d Hd ds "nfinity") as [Hinfinity _].
  destruct (digit_not_word d Hd ds "an") as [_ Hnan].
  rewrite Hinf, Hinfinity, Hnan. cbn [orb].
  unfold parse_decimal. rewrite (span_all _ _ Hdig).
  rewrite append_empty_r. cbn [parse_exponent String.length].
  unfold float_of_decimal. cbn [Z.of_nat Z.sub Z.opp Z.add Z.leb Z.compare].
  change (10 ^ 0) with 1. rewrite Z.mul_1_r. reflexivity.
Qed.

Lemma convert_suffix_scaled (number : string) :
  PyStr.forallb number_char number = true ->
  convert_views_to_number (number ++ "K views")%string = scaled number 1000
  /\ convert_views_to_number (number ++ "M views")%string = scaled number 1000000
  /\ convert_views_to_number (number ++ "B views")%string
     = scaled number 1000000000.
Proof.
  intros Hnum.
  rewrite !convert_views_to_number_unfold. unfold normalizer_spec.
  rewrite !unit_stripped_suffix by (reflexivity || exact Hnum).
  cbv zeta.
  rewrite (contains_suffix "K"), (contains_suffix "M"), (contains_suffix "B").
  rewrite !replace_suffix_letter by (reflexivity || exact Hnum).
  rewrite (contains_other_letter "K" "M"), (contains_other_letter "K" "B"),
    (contains_other_letter "M" "B") by (reflexivity || exact Hnum).
  repeat split; reflexivity.
Qed.

Lemma below_2_53_printable (n : Z) :
  0 <= n < 2 ^ 53 -> Z.abs n < 10 ^ 4300.
Proof.
  intros Hn. rewrite Z.abs_eq by lia.
  apply Z.lt_le_trans with (2 ^ 53); [lia |].
  apply Z.le_trans with (10 ^ 53).
  - apply Z.pow_le_mono_l. lia.
  - apply Z.pow_le_mono_r; lia.
Qed.

Lemma scaled_whole (n : Z) (k : positive) :
  0 <= n -> Z.pos k < 2 ^ 53 -> n * Z.pos k < 2 ^ 53 ->
  scaled (PyExt.str_of_int n) (Z.pos k) = n * Z.pos k.
Proof.
  intros Hn Hk Hnk.
  assert (Hp : Z.abs n < 10 ^ 4300) by (apply below_2_53_printable; nia).
  destruct (str_of_int_spec n Hp) as [ds [Hstr [Hdig [Hne [_ Hval]]]]].
  assert (Hneg : (n <? 0) = false) by (apply Z.ltb_ge; lia).
  rewrite Hneg in Hstr. rewrite Hstr. unfold scaled.
  rewrite (float_of_str_digits ds Hdig Hne), Hval, Z.abs_eq by lia.
  rewrite (mul_int_whole n k Hn Hk Hnk). reflexivity.
Qed.

(** Whole numbers of thousands, millions and billions are converted
    exactly: as long as the product stays below [2^53], the result is
    the number times the factor, with no rounding error from the
    floats. *)
Theorem convert_views_whole_number_exact :
  forall n,
    0 <= n ->
    (n * 1000 < 2 ^ 53 ->
     convert_views_to_number (PyExt.str_of_int n ++ "K views")%string
     = n * 1000)
    /\ (n * 1000000 < 2 ^ 53 ->
        convert_views_to_number (PyExt.str_of_int n ++ "M views")%string
        = n * 1000000)
    /\ (n * 1000000000 < 2 ^ 53 ->
        convert_views_to_number (PyExt.str_of_int n ++ "B views")%string
        = n * 1000000000).
Proof.
  intros n Hn.
  assert (Hnum : forall k, n * Z.pos k < 2 ^ 53 ->
            PyStr.forallb number_char (PyExt.str_of_int n) = true).
  { intros k Hk. apply str_of_int_number, below_2_53_printable. nia. }
  split; [| split]; intros Hb.
  - destruct (convert_suffix_scaled _ (Hnum 1000%positive Hb)) as [-> _].
    apply (scaled_whole n 1000); [exact Hn | reflexivity | exact Hb].
  - destruct (convert_suffix_scaled _ (Hnum 1000000%positive Hb)) as [_ [-> _]].
    apply (scaled_whole n 1000000); [exact Hn | reflexivity | exact Hb].
  - destruct (convert_suffix_scaled _ (Hnum 1000000000%positive Hb))
      as [_ [_ ->]].
    apply (scaled_whole n 1000000000); [exact Hn | reflexivity | exact Hb].
Qed.

Lemma convert_views_whole_number_exact_witness :
  convert_views_to_number (PyExt.str_of_int 9007199254740 ++ "K views")%string
  = 9007199254740 * 1000.
Proof.
  apply (proj1 (convert_views_whole_number_exact 9007199254740 ltac:(lia))).
  reflexivity.
Defined.
